(** * okPushy2: the drag session of the push/pull tool

    A shallow embedding of [src/okPushy2.py] (class [OkPushyTool]) and the
    properties of its three dragger callbacks [on_press], [on_drag] and
    [on_release].

    - Python floats and the components of [om.MVector] are IEEE-754 binary64
      numbers: they are Rocq's primitive floats, with the operations the
      source applies, in the order it applies them.
    - Identifiers are strings; the selection is a list of strings and
      [initial_scales] a finite map keyed by identifier.
    - [maya.cmds] is the host: its queries are the fields of a record [Maya]
      (a snapshot of the scene at the time of the callback) and its commands
      (undo chunks, move, scale, refresh) are logged in a trace.
    - A callback is a computation in a small state/writer/error monad: it
      updates the fields of [self], appends to the trace and may raise. *)

From Stdlib Require Import Floats ZArith Lia Bool DecimalString.
From stdpp Require Import gmap strings list.

#[local] Set Warnings "-inexact-float".

(** ** Vectors: [om.MVector] *)

Module MVector.

Record t : Type := mk { x : float; y : float; z : float }.

(** [om.MVector()] *)
Definition zero : t := mk 0 0 0.

(** [a + b] *)
Definition add (a b : t) : t :=
  mk (x a + x b)%float (y a + y b)%float (z a + z b)%float.

(** [a - b] *)
Definition sub (a b : t) : t :=
  mk (x a - x b)%float (y a - y b)%float (z a - z b)%float.

(** [a * k] for a scalar [k] *)
Definition mul (a : t) (k : float) : t :=
  mk (x a * k)%float (y a * k)%float (z a * k)%float.

End MVector.

Abbreviation MVector := MVector.t.

(** ** Python values and exceptions *)

Inductive exn : Type :=
| TypeError
| IndexError
| ValueError.

Inductive result (A : Type) : Type :=
| Ok (a : A)
| Raise (e : exn).
Arguments Ok {A} a.
Arguments Raise {A} e.

(** [sub in s] on strings *)
Fixpoint str_in (sub s : string) : bool :=
  if String.prefix sub s then true
  else match s with
       | EmptyString => false
       | String _ s' => str_in sub s'
       end.

(** Truth value of a string that may be [None] *)
Definition truthy_str (o : option string) : bool :=
  match o with
  | Some EmptyString | None => false
  | Some _ => true
  end.

(** Truth value of a list that may be [None] *)
Definition truthy_list {A} (o : option (list A)) : bool :=
  match o with
  | Some (_ :: _) => true
  | _ => false
  end.

(** [a or b] on lists that may be [None] *)
Definition list_or {A} (a : option (list A)) (b : list A) : list A :=
  match a with
  | Some (x :: l) => x :: l
  | _ => b
  end.

(** ** The host: [maya.cmds] and [maya.api.OpenMaya]

    One field per query the tool makes, named after the command and the flag
    that selects the query.  A value of [Maya] is the scene as the host
    answers at the time of one callback. *)

Record Maya : Type := {
  (** [cmds.getPanel(withFocus=True)] *)
  getPanel_withFocus : option string;
  (** [cmds.getPanel(typeOf=panel)] *)
  getPanel_typeOf : string -> string;
  (** [cmds.modelEditor(panel, query=True, camera=True)] *)
  modelEditor_camera : string -> string;
  (** [cmds.listRelatives(node, shapes=True)] *)
  listRelatives_shapes : string -> option (list string);
  (** [cmds.getAttr(attr)] of a boolean attribute *)
  getAttr_bool : string -> bool;
  (** [cmds.ls(selection=True, long=True, flatten=True)] *)
  ls_selection : list string;
  (** [cmds.polyListComponentConversion(items, toVertex=True)] *)
  polyListComponentConversion_toVertex : list string -> list string;
  (** [cmds.ls(items, flatten=True, long=True)] *)
  ls_flatten : list string -> list string;
  (** [cmds.ls(items, type='transform', long=True)] *)
  ls_transform : list string -> list string;
  (** [cmds.draggerContext(ctx, query=True, modifier=True)] *)
  draggerContext_modifier : string;
  (** [cmds.xform(item, query=True, worldSpace=True, translation=True)] *)
  xform_translation : string -> list float;
  (** [cmds.getAttr(attr)] of a matrix attribute *)
  getAttr_matrix : string -> list float;
  (** [cmds.listRelatives(nodes, shapes=True, noIntermediate=True, fullPath=True)] *)
  listRelatives_shapes_fullPath : list string -> option (list string);
  (** [cmds.exactWorldBoundingBox(nodes, ignoreInvisible=True)] *)
  exactWorldBoundingBox : list string -> option (list float);
  (** [cmds.getAttr(attr)] of a double3 attribute: a list of tuples *)
  getAttr_double3 : string -> list (list float);
  (** [cmds.draggerContext(ctx, query=True, anchorPoint=True)] *)
  draggerContext_anchorPoint : list float;
  (** [om.MVector(seq)]: the vector built from a sequence of floats *)
  MVector_of_seq : list float -> result MVector;
  (** [v.normal()] *)
  MVector_normal : MVector -> MVector
}.

(** Commands sent to the host, in the order they are sent. *)
Inductive call : Type :=
| UndoOpenChunk                                  (* cmds.undoInfo(openChunk=True) *)
| UndoCloseChunk                                 (* cmds.undoInfo(closeChunk=True) *)
| Move (x y z : float) (item : string)           (* cmds.move(x, y, z, item, absolute=True, worldSpace=True) *)
| Scale (x y z : float) (item : string)          (* cmds.scale(x, y, z, item, absolute=True) *)
| Refresh.                                       (* cmds.refresh() *)

(** ** The tool instance: the fields of [self] *)

Record OkPushyTool : Type := {
  former_context : string;
  is_ready : bool;
  selection : list string;
  is_ortho : bool;
  is_component_mode : bool;
  scale_compensate : bool;
  initial_positions : list MVector;
  initial_vectors : list MVector;
  initial_scales : gmap string MVector;
  camera_pos : MVector;
  initial_avg_pos : MVector;
  cam_to_avg_vec : MVector;
  view_direction : MVector;
  anchor_point : list float
}.

Definition CONTEXT_NAME : string := "okPushyContext_py".
Definition SENSITIVITY : float := 0.005%float.

(** Assignments [self.field = v]. *)

Definition set_is_ready (v : bool) (s : OkPushyTool) : OkPushyTool :=
  {| former_context := former_context s; is_ready := v; selection := selection s;
     is_ortho := is_ortho s; is_component_mode := is_component_mode s;
     scale_compensate := scale_compensate s; initial_positions := initial_positions s;
     initial_vectors := initial_vectors s; initial_scales := initial_scales s;
     camera_pos := camera_pos s; initial_avg_pos := initial_avg_pos s;
     cam_to_avg_vec := cam_to_avg_vec s; view_direction := view_direction s;
     anchor_point := anchor_point s |}.

Definition set_selection (v : list string) (s : OkPushyTool) : OkPushyTool :=
  {| former_context := former_context s; is_ready := is_ready s; selection := v;
     is_ortho := is_ortho s; is_component_mode := is_component_mode s;
     scale_compensate := scale_compensate s; initial_positions := initial_positions s;
     initial_vectors := initial_vectors s; initial_scales := initial_scales s;
     camera_pos := camera_pos s; initial_avg_pos := initial_avg_pos s;
     cam_to_avg_vec := cam_to_avg_vec s; view_direction := view_direction s;
     anchor_point := anchor_point s |}.

Definition set_is_ortho (v : bool) (s : OkPushyTool) : OkPushyTool :=
  {| former_context := former_context s; is_ready := is_ready s; selection := selection s;
     is_ortho := v; is_component_mode := is_component_mode s;
     scale_compensate := scale_compensate s; initial_positions := initial_positions s;
     initial_vectors := initial_vectors s; initial_scales := initial_scales s;
     camera_pos := camera_pos s; initial_avg_pos := initial_avg_pos s;
     cam_to_avg_vec := cam_to_avg_vec s; view_direction := view_direction s;
     anchor_point := anchor_point s |}.

Definition set_is_component_mode (v : bool) (s : OkPushyTool) : OkPushyTool :=
  {| former_context := former_context s; is_ready := is_ready s; selection := selection s;
     is_ortho := is_ortho s; is_component_mode := v;
     scale_compensate := scale_compensate s; initial_positions := initial_positions s;
     initial_vectors := initial_vectors s; initial_scales := initial_scales s;
     camera_pos := camera_pos s; initial_avg_pos := initial_avg_pos s;
     cam_to_avg_vec := cam_to_avg_vec s; view_direction := view_direction s;
     anchor_point := anchor_point s |}.

Definition set_scale_compensate (v : bool) (s : OkPushyTool) : OkPushyTool :=
  {| former_context := former_context s; is_ready := is_ready s; selection := selection s;
     is_ortho := is_ortho s; is_component_mode := is_component_mode s;
     scale_compensate := v; initial_positions := initial_positions s;
     initial_vectors := initial_vectors s; initial_scales := initial_scales s;
     camera_pos := camera_pos s; initial_avg_pos := initial_avg_pos s;
     cam_to_avg_vec := cam_to_avg_vec s; view_direction := view_direction s;
     anchor_point := anchor_point s |}.

Definition set_initial_positions (v : list MVector) (s : OkPushyTool) : OkPushyTool :=
  {| former_context := former_context s; is_ready := is_ready s; selection := selection s;
     is_ortho := is_ortho s; is_component_mode := is_component_mode s;
     scale_compensate := scale_compensate s; initial_positions := v;
     initial_vectors := initial_vectors s; initial_scales := initial_scales s;
     camera_pos := camera_pos s; initial_avg_pos := initial_avg_pos s;
     cam_to_avg_vec := cam_to_avg_vec s; view_direction := view_direction s;
     anchor_point := anchor_point s |}.

Definition set_initial_vectors (v : list MVector) (s : OkPushyTool) : OkPushyTool :=
  {| former_context := former_context s; is_ready := is_ready s; selection := selection s;
     is_ortho := is_ortho s; is_component_mode := is_component_mode s;
     scale_compensate := scale_compensate s; initial_positions := initial_positions s;
     initial_vectors := v; initial_scales := initial_scales s;
     camera_pos := camera_pos s; initial_avg_pos := initial_avg_pos s;
     cam_to_avg_vec := cam_to_avg_vec s; view_direction := view_direction s;
     anchor_point := anchor_point s |}.

Definition set_initial_scales (v : gmap string MVector) (s : OkPushyTool) : OkPushyTool :=
  {| former_context := former_context s; is_ready := is_ready s; selection := selection s;
     is_ortho := is_ortho s; is_component_mode := is_component_mode s;
     scale_compensate := scale_compensate s; initial_positions := initial_positions s;
     initial_vectors := initial_vectors s; initial_scales := v;
     camera_pos := camera_pos s; initial_avg_pos := initial_avg_pos s;
     cam_to_avg_vec := cam_to_avg_vec s; view_direction := view_direction s;
     anchor_point := anchor_point s |}.

Definition set_camera_pos (v : MVector) (s : OkPushyTool) : OkPushyTool :=
  {| former_context := former_context s; is_ready := is_ready s; selection := selection s;
     is_ortho := is_ortho s; is_component_mode := is_component_mode s;
     scale_compensate := scale_compensate s; initial_positions := initial_positions s;
     initial_vectors := initial_vectors s; initial_scales := initial_scales s;
     camera_pos := v; initial_avg_pos := initial_avg_pos s;
     cam_to_avg_vec := cam_to_avg_vec s; view_direction := view_direction s;
     anchor_point := anchor_point s |}.

Definition set_initial_avg_pos (v : MVector) (s : OkPushyTool) : OkPushyTool :=
  {| former_context := former_context s; is_ready := is_ready s; selection := selection s;
     is_ortho := is_ortho s; is_component_mode := is_component_mode s;
     scale_compensate := scale_compensate s; initial_positions := initial_positions s;
     initial_vectors := initial_vectors s; initial_scales := initial_scales s;
     camera_pos := camera_pos s; initial_avg_pos := v;
     cam_to_avg_vec := cam_to_avg_vec s; view_direction := view_direction s;
     anchor_point := anchor_point s |}.

Definition set_cam_to_avg_vec (v : MVector) (s : OkPushyTool) : OkPushyTool :=
  {| former_context := former_context s; is_ready := is_ready s; selection := selection s;
     is_ortho := is_ortho s; is_component_mode := is_component_mode s;
     scale_compensate := scale_compensate s; initial_positions := initial_positions s;
     initial_vectors := initial_vectors s; initial_scales := initial_scales s;
     camera_pos := camera_pos s; initial_avg_pos := initial_avg_pos s;
     cam_to_avg_vec := v; view_direction := view_direction s;
     anchor_point := anchor_point s |}.

Definition set_view_direction (v : MVector) (s : OkPushyTool) : OkPushyTool :=
  {| former_context := former_context s; is_ready := is_ready s; selection := selection s;
     is_ortho := is_ortho s; is_component_mode := is_component_mode s;
     scale_compensate := scale_compensate s; initial_positions := initial_positions s;
     initial_vectors := initial_vectors s; initial_scales := initial_scales s;
     camera_pos := camera_pos s; initial_avg_pos := initial_avg_pos s;
     cam_to_avg_vec := cam_to_avg_vec s; view_direction := v;
     anchor_point := anchor_point s |}.

Definition set_anchor_point (v : list float) (s : OkPushyTool) : OkPushyTool :=
  {| former_context := former_context s; is_ready := is_ready s; selection := selection s;
     is_ortho := is_ortho s; is_component_mode := is_component_mode s;
     scale_compensate := scale_compensate s; initial_positions := initial_positions s;
     initial_vectors := initial_vectors s; initial_scales := initial_scales s;
     camera_pos := camera_pos s; initial_avg_pos := initial_avg_pos s;
     cam_to_avg_vec := cam_to_avg_vec s; view_direction := view_direction s;
     anchor_point := v |}.

(** ** Callbacks as computations

    A method of the tool reads and writes [self], sends commands to the host
    and returns or raises.  The fields written before an exception stay
    written, and so do the commands sent: a computation takes the instance
    and the commands sent so far and gives its outcome, the instance and the
    commands sent by then. *)

Definition M (A : Type) : Type :=
  OkPushyTool -> list call -> result A * OkPushyTool * list call.

Definition ret {A} (a : A) : M A := fun s t => (Ok a, s, t).

Definition bind {A B} (m : M A) (f : A -> M B) : M B :=
  fun s t =>
    match m s t with
    | (Ok a, s1, t1) => f a s1 t1
    | (Raise e, s1, t1) => (Raise e, s1, t1)
    end.

Declare Scope py_scope.
Delimit Scope py_scope with py.
Bind Scope py_scope with M.
Notation "x ← y ; z" := (bind y (fun x => z))
  (at level 20, y at level 100, z at level 200, only parsing) : py_scope.
Notation "x ;; z" := (bind x (fun _ => z))
  (at level 100, z at level 200, only parsing, right associativity) : py_scope.
#[local] Open Scope py_scope.

(** [raise e] *)
Definition raise {A} (e : exn) : M A := fun s t => (Raise e, s, t).

(** Reading a field of [self], and assigning one. *)
Definition get {A} (field : OkPushyTool -> A) : M A := fun s t => (Ok (field s), s, t).
Definition assign (upd : OkPushyTool -> OkPushyTool) : M unit := fun s t => (Ok tt, upd s, t).

(** Sending a command to the host: it is appended to the trace. *)
Definition send (c : call) : M unit := fun s t => (Ok tt, s, t ++ [c]).

(** [l[i]] *)
Definition getitem {A} (l : list A) (i : nat) : M A :=
  match l !! i with
  | Some a => ret a
  | None => raise IndexError
  end.

(** [o[i]] where [o] may be [None] *)
Definition getitem_opt {A} (o : option (list A)) (i : nat) : M A :=
  match o with
  | Some l => getitem l i
  | None => raise TypeError
  end.

(** The value of a host function that may raise. *)
Definition lift {A} (r : result A) : M A := fun s t => (r, s, t).

(** [for x in l: body(x)] *)
Fixpoint for_ {A} (l : list A) (body : A -> M unit) : M unit :=
  match l with
  | [] => ret tt
  | x :: l' => body x ;; for_ l' body
  end.

(** [for i, x in enumerate(l): body(i, x)], counting from [i] *)
Fixpoint for_enumerate {A} (i : nat) (l : list A) (body : nat -> A -> M unit) : M unit :=
  match l with
  | [] => ret tt
  | x :: l' => body i x ;; for_enumerate (S i) l' body
  end.

(** A callback run on an instance, with an empty trace. *)
Definition run {A} (m : M A) (s : OkPushyTool) : result A * OkPushyTool * list call :=
  m s [].

(** ** The class [OkPushyTool] *)

(** [_reset_state]: every per-drag field back to its initial value;
    [former_context] is not a per-drag field and is kept. *)
Definition _reset_state : M unit :=
  assign (fun s =>
    {| former_context := former_context s;
       is_ready := false;
       selection := [];
       is_ortho := false;
       is_component_mode := false;
       scale_compensate := false;
       initial_positions := [];
       initial_vectors := [];
       initial_scales := ∅;
       camera_pos := MVector.zero;
       initial_avg_pos := MVector.zero;
       cam_to_avg_vec := MVector.zero;
       view_direction := MVector.zero;
       anchor_point := [0%float; 0%float] |}).

(** The instance that [_reset_state] leaves behind. *)
Definition idle (ctx : string) : OkPushyTool :=
  {| former_context := ctx;
     is_ready := false;
     selection := [];
     is_ortho := false;
     is_component_mode := false;
     scale_compensate := false;
     initial_positions := [];
     initial_vectors := [];
     initial_scales := ∅;
     camera_pos := MVector.zero;
     initial_avg_pos := MVector.zero;
     cam_to_avg_vec := MVector.zero;
     view_direction := MVector.zero;
     anchor_point := [0%float; 0%float] |}.

(** [__init__]: [former_context = ""], then [_reset_state()]. *)
Definition __init__ : OkPushyTool := idle "".

(** [on_press], lines 115-131: the targets of the drag. *)
Definition resolve_selection (cmds : Maya) (selection_raw : list string) : M unit :=
  assign (set_is_component_mode (existsb (str_in ".") selection_raw)) ;;
  self_is_component_mode ← get is_component_mode ;
  if self_is_component_mode : bool then
    let has_faces_or_edges :=
      existsb (fun s => str_in ".f[" s || str_in ".e[" s) selection_raw in
    if has_faces_or_edges then
      let verts_from_components := polyListComponentConversion_toVertex cmds selection_raw in
      assign (set_selection (ls_flatten cmds verts_from_components))
    else
      assign (set_selection selection_raw)
  else
    assign (set_selection (ls_transform cmds selection_raw)).

(** [on_press], lines 139-141: one initial position per target, in order. *)
Definition record_initial_positions (cmds : Maya) : M unit :=
  self_selection ← get selection ;
  for_ self_selection (fun item =>
    let pos := xform_translation cmds item in
    x ← getitem pos 0 ;
    y ← getitem pos 1 ;
    z ← getitem pos 2 ;
    self_initial_positions ← get initial_positions ;
    assign (set_initial_positions (self_initial_positions ++ [MVector.mk x y z]))).

(** [on_press], lines 162-165: the scales of the targets. *)
Definition record_initial_scales (cmds : Maya) : M unit :=
  self_scale_compensate ← get scale_compensate ;
  self_is_component_mode ← get is_component_mode ;
  if self_scale_compensate && negb self_is_component_mode then
    self_selection ← get selection ;
    for_ self_selection (fun item =>
      scale_val ← getitem (getAttr_double3 cmds (item +:+ ".scale")) 0 ;
      x ← getitem scale_val 0 ;
      y ← getitem scale_val 1 ;
      z ← getitem scale_val 2 ;
      self_initial_scales ← get initial_scales ;
      assign (set_initial_scales (<[item := MVector.mk x y z]> self_initial_scales)))
  else ret tt.

(** [on_press], lines 167-168. *)
Definition arm (cmds : Maya) : M unit :=
  assign (set_anchor_point (draggerContext_anchorPoint cmds)) ;;
  assign (set_is_ready true).

Definition on_press (cmds : Maya) : M unit :=
  _reset_state ;;
  send UndoOpenChunk ;;
  let panel := getPanel_withFocus cmds in
  if negb (truthy_str panel)
     || negb (str_in "modelPanel" (getPanel_typeOf cmds (default "" panel)))
  then send UndoCloseChunk
  else
  let cam_transform := modelEditor_camera cmds (default "" panel) in
  cam_shape ← getitem_opt (listRelatives_shapes cmds cam_transform) 0 ;
  assign (set_is_ortho (getAttr_bool cmds (cam_shape +:+ ".orthographic"))) ;;
  let selection_raw := ls_selection cmds in
  if negb (truthy_list (Some selection_raw)) then send UndoCloseChunk
  else
  resolve_selection cmds selection_raw ;;
  self_selection ← get selection ;
  if negb (truthy_list (Some self_selection)) then send UndoCloseChunk
  else
  let modifier := draggerContext_modifier cmds in
  self_former_context ← get former_context ;
  assign (set_scale_compensate
            (String.eqb modifier "ctrl" || String.eqb self_former_context "scaleSuperContext")) ;;
  record_initial_positions cmds ;;
  self_initial_positions ← get initial_positions ;
  if negb (truthy_list (Some self_initial_positions)) then send UndoCloseChunk
  else
  self_is_ortho ← get is_ortho ;
  if self_is_ortho : bool then
    let cam_matrix_list := getAttr_matrix cmds (cam_transform +:+ ".worldMatrix[0]") in
    m8 ← getitem cam_matrix_list 8 ;
    m9 ← getitem cam_matrix_list 9 ;
    m10 ← getitem cam_matrix_list 10 ;
    let z_axis_vector := MVector.mk m8 m9 m10 in
    assign (set_view_direction (MVector_normal cmds (MVector.mul z_axis_vector (-1)%float))) ;;
    arm cmds
  else
    self_selection ← get selection ;
    self_is_component_mode ← get is_component_mode ;
    let bbox_nodes :=
      if self_is_component_mode : bool then self_selection
      else list_or (listRelatives_shapes_fullPath cmds self_selection) self_selection in
    let bbox := exactWorldBoundingBox cmds bbox_nodes in
    if negb (truthy_list bbox) then send UndoCloseChunk
    else
    b0 ← getitem_opt bbox 0 ; b3 ← getitem_opt bbox 3 ;
    b1 ← getitem_opt bbox 1 ; b4 ← getitem_opt bbox 4 ;
    b2 ← getitem_opt bbox 2 ; b5 ← getitem_opt bbox 5 ;
    assign (set_initial_avg_pos
              (MVector.mk ((b0 + b3) / 2)%float ((b1 + b4) / 2)%float ((b2 + b5) / 2)%float)) ;;
    cam_pos ← lift (MVector_of_seq cmds (xform_translation cmds cam_transform)) ;
    assign (set_camera_pos cam_pos) ;;
    self_initial_avg_pos ← get initial_avg_pos ;
    self_camera_pos ← get camera_pos ;
    assign (set_cam_to_avg_vec (MVector.sub self_initial_avg_pos self_camera_pos)) ;;
    self_initial_positions ← get initial_positions ;
    self_initial_avg_pos ← get initial_avg_pos ;
    assign (set_initial_vectors
              (map (fun pos => MVector.sub pos self_initial_avg_pos) self_initial_positions)) ;;
    record_initial_scales cmds ;;
    arm cmds.

(** [on_drag]; [drag_point] is what
    [cmds.draggerContext(ctx, query=True, dragPoint=True)] answers. *)
Definition on_drag (drag_point : list float) : M unit :=
  self_is_ready ← get is_ready ;
  if negb self_is_ready then ret tt
  else
  d0 ← getitem drag_point 0 ;
  self_anchor_point ← get anchor_point ;
  a0 ← getitem self_anchor_point 0 ;
  let change := ((d0 - a0) * SENSITIVITY)%float in
  self_is_ortho ← get is_ortho ;
  (if self_is_ortho : bool then
    self_view_direction ← get view_direction ;
    let total_move_vector := MVector.mul (MVector.mul self_view_direction change) 2%float in
    self_selection ← get selection ;
    for_enumerate 0 self_selection (fun i item =>
      self_initial_positions ← get initial_positions ;
      p ← getitem self_initial_positions i ;
      let new_pos := MVector.add p total_move_vector in
      send (Move (MVector.x new_pos) (MVector.y new_pos) (MVector.z new_pos) item))
  else
    let change_depth := (1 + change)%float in
    self_camera_pos ← get camera_pos ;
    self_cam_to_avg_vec ← get cam_to_avg_vec ;
    let new_avg_pos :=
      MVector.add self_camera_pos (MVector.mul self_cam_to_avg_vec change_depth) in
    self_selection ← get selection ;
    for_enumerate 0 self_selection (fun i item =>
      self_scale_compensate ← get scale_compensate ;
      let scale_factor := if self_scale_compensate : bool then change_depth else 1%float in
      self_initial_vectors ← get initial_vectors ;
      v ← getitem self_initial_vectors i ;
      let offset_vec := MVector.mul v scale_factor in
      let new_pos := MVector.add new_avg_pos offset_vec in
      send (Move (MVector.x new_pos) (MVector.y new_pos) (MVector.z new_pos) item) ;;
      self_initial_scales ← get initial_scales ;
      match self_initial_scales !! item with
      | Some initial_scale =>
          let new_scale := MVector.mul initial_scale scale_factor in
          send (Scale (MVector.x new_scale) (MVector.y new_scale) (MVector.z new_scale) item)
      | None => ret tt
      end)) ;;
  send Refresh.

Definition on_release : M unit :=
  send UndoCloseChunk ;;
  _reset_state.

(** ** Sessions: the callbacks as the dragger context fires them *)

Inductive event : Type :=
| Press (cmds : Maya)               (* pressCommand, with the scene at that time *)
| Drag (drag_point : list float)    (* dragCommand, with the pointer position *)
| Release.                          (* releaseCommand *)

Definition handle (e : event) : M unit :=
  match e with
  | Press cmds => on_press cmds
  | Drag drag_point => on_drag drag_point
  | Release => on_release
  end.

(** The instance and the commands sent after a sequence of events.  An
    exception raised by a callback is reported by the host and the next event
    is handled on the instance as the callback left it. *)
Fixpoint dispatch (es : list event) (s : OkPushyTool) : OkPushyTool * list call :=
  match es with
  | [] => (s, [])
  | e :: es' =>
      let '(_, s1, t1) := run (handle e) s in
      let '(s2, t2) := dispatch es' s1 in
      (s2, t1 ++ t2)
  end.

(** ** Vocabulary of the properties *)

(** [cmds.move] and [cmds.scale] with the components of a vector. *)
Definition move_to (v : MVector) (item : string) : call :=
  Move (MVector.x v) (MVector.y v) (MVector.z v) item.
Definition scale_to (v : MVector) (item : string) : call :=
  Scale (MVector.x v) (MVector.y v) (MVector.z v) item.

Definition is_open (c : call) : bool :=
  match c with UndoOpenChunk => true | _ => false end.
Definition is_close (c : call) : bool :=
  match c with UndoCloseChunk => true | _ => false end.
Definition is_move (c : call) : bool :=
  match c with Move _ _ _ _ => true | _ => false end.
Definition is_scale (c : call) : bool :=
  match c with Scale _ _ _ _ => true | _ => false end.
(** The commands that change the scene. *)
Definition is_mutation (c : call) : bool := is_move c || is_scale c.

(** How many undo chunks a trace opens, and how many it closes. *)
Definition opens (t : list call) : nat := length (filter (fun c => is_open c = true) t).
Definition closes (t : list call) : nat := length (filter (fun c => is_close c = true) t).

(** The drag delta of [on_drag], from the x coordinates of the drag point
    and of the anchor point. *)
Definition delta (drag_x anchor_x : float) : float :=
  ((drag_x - anchor_x) * SENSITIVITY)%float.

(** The per-target data agree with the targets. *)
Definition consistent (s : OkPushyTool) : Prop :=
  length (initial_positions s) = length (selection s)
  /\ (is_ortho s = false -> length (initial_vectors s) = length (selection s))
  /\ (forall item, is_Some (initial_scales s !! item) -> item ∈ selection s).

(** Identifiers, as the tool tells them apart. *)
Definition is_component (item : string) : bool := str_in "." item.
Definition is_face_or_edge (item : string) : bool := str_in ".f[" item || str_in ".e[" item.
Definition is_vertex (item : string) : bool := str_in ".vtx[" item.

(** The nodes whose bounding box a perspective press asks for (line 152). *)
Definition bbox_nodes (cmds : Maya) (s : OkPushyTool) : list string :=
  if is_component_mode s then selection s
  else list_or (listRelatives_shapes_fullPath cmds (selection s)) (selection s).

(** No model panel has the focus (line 103). *)
Definition no_viewport (cmds : Maya) : bool :=
  negb (truthy_str (getPanel_withFocus cmds))
  || negb (str_in "modelPanel" (getPanel_typeOf cmds (default "" (getPanel_withFocus cmds)))).

(** The targets [on_press] resolves from the raw selection (lines 115-131). *)
Definition resolved (cmds : Maya) : list string :=
  let selection_raw := ls_selection cmds in
  if existsb is_component selection_raw then
    if existsb is_face_or_edge selection_raw then
      ls_flatten cmds (polyListComponentConversion_toVertex cmds selection_raw)
    else selection_raw
  else ls_transform cmds selection_raw.

(** The three ways [on_press] can end: it returns without arming, it raises,
    or it arms the session. *)
Inductive press_outcome (cmds : Maya) (s : OkPushyTool)
  : result unit -> OkPushyTool -> list call -> Prop :=
| press_aborted s' :
    is_ready s' = false ->
    former_context s' = former_context s ->
    (no_viewport cmds = false -> ls_selection cmds <> [] -> selection s' <> [] ->
     is_ortho s' = false
     /\ truthy_list (exactWorldBoundingBox cmds (bbox_nodes cmds s')) = false) ->
    press_outcome cmds s (Ok tt) s' [UndoOpenChunk; UndoCloseChunk]
| press_raised e s' :
    is_ready s' = false ->
    former_context s' = former_context s ->
    no_viewport cmds = false ->
    press_outcome cmds s (Raise e) s' [UndoOpenChunk]
| press_armed s' :
    is_ready s' = true ->
    former_context s' = former_context s ->
    consistent s' ->
    no_viewport cmds = false ->
    ls_selection cmds <> [] ->
    selection s' = resolved cmds ->
    selection s' <> [] ->
    is_component_mode s' = existsb is_component (ls_selection cmds) ->
    (is_ortho s' = true -> initial_scales s' = ∅) ->
    (scale_compensate s' && negb (is_component_mode s') = false -> initial_scales s' = ∅) ->
    (is_ortho s' = false ->
     truthy_list (exactWorldBoundingBox cmds (bbox_nodes cmds s')) = true
     /\ initial_vectors s' =
        map (fun pos => MVector.sub pos (initial_avg_pos s')) (initial_positions s')
     /\ cam_to_avg_vec s' = MVector.sub (initial_avg_pos s') (camera_pos s')) ->
    anchor_point s' = draggerContext_anchorPoint cmds ->
    press_outcome cmds s (Ok tt) s' [UndoOpenChunk].

(** What holds of an armed session, whatever scene armed it. *)
Definition well_armed (s : OkPushyTool) : Prop :=
  consistent s
  /\ selection s <> []
  /\ (is_ortho s = true -> initial_scales s = ∅)
  /\ (scale_compensate s && negb (is_component_mode s) = false -> initial_scales s = ∅)
  /\ (is_ortho s = false ->
      initial_vectors s =
        map (fun pos => MVector.sub pos (initial_avg_pos s)) (initial_positions s)
      /\ cam_to_avg_vec s = MVector.sub (initial_avg_pos s) (camera_pos s)).

(** The moves of an orthographic drag by [d] (lines 179-182). *)
Definition ortho_calls (s : OkPushyTool) (d : float) : list call :=
  let total_move_vector := MVector.mul (MVector.mul (view_direction s) d) 2%float in
  zip_with (fun item p => move_to (MVector.add p total_move_vector) item)
    (selection s) (initial_positions s).

(** The moves and scales of a perspective drag by [d] (lines 184-196). *)
Definition perspective_calls (s : OkPushyTool) (d : float) : list call :=
  let change_depth := (1 + d)%float in
  let new_avg_pos := MVector.add (camera_pos s) (MVector.mul (cam_to_avg_vec s) change_depth) in
  let scale_factor := if scale_compensate s then change_depth else 1%float in
  concat
    (zip_with
       (fun item v =>
          move_to (MVector.add new_avg_pos (MVector.mul v scale_factor)) item
          :: match initial_scales s !! item with
             | Some initial_scale => [scale_to (MVector.mul initial_scale scale_factor) item]
             | None => []
             end)
       (selection s) (initial_vectors s)).

(** A vertex of the scene: the path of its mesh and its index. *)
Definition vertex : Type := string * nat.

(** The identifier of a vertex, [path.vtx[index]]. *)
Definition vertex_identifier (v : vertex) : string :=
  v.1 +:+ ".vtx[" +:+ NilEmpty.string_of_uint (Nat.to_uint v.2) +:+ "]".

(** Modelled from the spec: the host's conversion to vertices,
    [convertToVertices(identifiers) -> sequence of identifier] of the host
    scene query interface, which lines 124-125 call as
    [cmds.polyListComponentConversion(..., toVertex=True)] followed by
    [cmds.ls(..., flatten=True, long=True)] and which is not under [src/].
    For a scene whose topology [mesh] gives the vertices every identifier
    touches (a vertex itself, an edge its two ends, a face its corners), it
    answers the selection's "constituent vertex set" as "a unified vertex
    list": the identifier of every vertex touched, once, in the order they
    are first touched. *)
Definition convertToVertices
    (mesh : string -> list vertex) (identifiers : list string) : list string :=
  remove_dups (vertex_identifier <$> (identifiers ≫= mesh)).

(** The distinct vertices a selection touches, as a set of identifiers. *)
Definition touched (mesh : string -> list vertex) (items : list string) : gset string :=
  list_to_set (vertex_identifier <$> (items ≫= mesh)).

(** ** Example scenes

    A plane [|pPlane1] with four vertices, one face and one edge, two cubes,
    and a camera [|persp] at (0, 0, 10) looking down -Z. *)

Module Demo.

Definition vtx0 : string := "|pPlane1.vtx[0]".
Definition vtx1 : string := "|pPlane1.vtx[1]".
Definition vtx2 : string := "|pPlane1.vtx[2]".
Definition vtx3 : string := "|pPlane1.vtx[3]".
Definition face0 : string := "|pPlane1.f[0]".
Definition edge0 : string := "|pPlane1.e[0]".
Definition cube1 : string := "|pCube1".
Definition cube2 : string := "|pCube2".
Definition cube1_shape : string := "|pCube1|pCubeShape1".

(** The topology of the plane. *)
Definition vertices (item : string) : list string :=
  if String.eqb item face0 then [vtx0; vtx1; vtx2; vtx3]
  else if String.eqb item edge0 then [vtx0; vtx1]
  else if is_vertex item then [item]
  else [].

(** The same topology by mesh path and vertex index. *)
Definition mesh (item : string) : list vertex :=
  if String.eqb item face0 then [("|pPlane1", 0); ("|pPlane1", 1); ("|pPlane1", 2); ("|pPlane1", 3)]
  else if String.eqb item edge0 then [("|pPlane1", 0); ("|pPlane1", 1)]
  else if String.eqb item vtx0 then [("|pPlane1", 0)]
  else if String.eqb item vtx1 then [("|pPlane1", 1)]
  else if String.eqb item vtx2 then [("|pPlane1", 2)]
  else if String.eqb item vtx3 then [("|pPlane1", 3)]
  else [].

(** World positions. *)
Definition position (item : string) : list float :=
  if String.eqb item vtx1 then [2; 0; 0]%float
  else if String.eqb item vtx2 then [0; 2; 0]%float
  else if String.eqb item vtx3 then [2; 2; 0]%float
  else if String.eqb item cube2 then [2; 0; 0]%float
  else if String.eqb item "|persp" then [0; 0; 10]%float
  else [0; 0; 0]%float.

(** The unit vector along [v]. *)
Definition normal (v : MVector) : MVector :=
  let n := PrimFloat.sqrt (MVector.x v * MVector.x v + MVector.y v * MVector.y v
                           + MVector.z v * MVector.z v)%float in
  MVector.mk (MVector.x v / n)%float (MVector.y v / n)%float (MVector.z v / n)%float.

(** The scene seen through an orthographic or a perspective camera, with a
    modifier key held, a selection and the bounding box the host answers. *)
Definition scene (orthographic : bool) (modifier : string) (selected : list string)
    (bbox : option (list float)) : Maya :=
  {| getPanel_withFocus := Some "modelPanel4";
     getPanel_typeOf := fun _ => "modelPanel";
     modelEditor_camera := fun _ => "|persp";
     listRelatives_shapes := fun _ => Some ["perspShape"];
     getAttr_bool := fun _ => orthographic;
     ls_selection := selected;
     polyListComponentConversion_toVertex := fun items => remove_dups (items ≫= vertices);
     ls_flatten := fun items => items;
     ls_transform := fun items =>
       filter (fun item => is_component item || str_in "Shape" item = false) items;
     draggerContext_modifier := modifier;
     xform_translation := position;
     getAttr_matrix := fun _ =>
       [1; 0; 0; 0;  0; 1; 0; 0;  0; 0; 1; 0;  0; 0; 10; 1]%float;
     listRelatives_shapes_fullPath := fun _ => None;
     exactWorldBoundingBox := fun _ => bbox;
     getAttr_double3 := fun _ => [[1; 2; 4]%float];
     draggerContext_anchorPoint := [100; 50; 0]%float;
     MVector_of_seq := fun l =>
       match l with
       | [a; b; c] => Ok (MVector.mk a b c)
       | _ => Raise ValueError
       end;
     MVector_normal := normal |}.

(** Nothing is selected. *)
Definition nothing_selected : Maya := scene false "none" [] None.

(** The scene with the focus on a panel that is not a viewport. *)
Definition outliner_focus : Maya :=
  {| getPanel_withFocus := Some "outlinerPanel1";
     getPanel_typeOf := fun _ => "outlinerPanel";
     modelEditor_camera := modelEditor_camera nothing_selected;
     listRelatives_shapes := listRelatives_shapes nothing_selected;
     getAttr_bool := getAttr_bool nothing_selected;
     ls_selection := [cube1];
     polyListComponentConversion_toVertex :=
       polyListComponentConversion_toVertex nothing_selected;
     ls_flatten := ls_flatten nothing_selected;
     ls_transform := ls_transform nothing_selected;
     draggerContext_modifier := "none";
     xform_translation := position;
     getAttr_matrix := getAttr_matrix nothing_selected;
     listRelatives_shapes_fullPath := listRelatives_shapes_fullPath nothing_selected;
     exactWorldBoundingBox := exactWorldBoundingBox nothing_selected;
     getAttr_double3 := getAttr_double3 nothing_selected;
     draggerContext_anchorPoint := draggerContext_anchorPoint nothing_selected;
     MVector_of_seq := MVector_of_seq nothing_selected;
     MVector_normal := normal |}.

(** Only the shape node of a cube is selected: no transform. *)
Definition shape_selected : Maya :=
  scene false "none" [cube1_shape] (Some [0; 0; 0; 2; 0; 0]%float).

(** A cube is selected and the host answers no bounding box. *)
Definition no_bounding_box : Maya := scene false "none" [cube1] None.

(** Two vertices at (0,0,0) and (2,0,0), perspective camera. *)
Definition two_vertices : Maya :=
  scene false "none" [vtx0; vtx1] (Some [0; 0; 0; 2; 0; 0]%float).

(** A vertex and the face it lies on. *)
Definition vertex_and_face : Maya :=
  scene false "none" [vtx0; face0] (Some [0; 0; 0; 2; 2; 0]%float).

(** Two cubes with ctrl held, through an orthographic camera. *)
Definition cubes_ortho_ctrl : Maya :=
  scene true "ctrl" [cube1; cube2] (Some [0; 0; 0; 2; 0; 0]%float).

(** Two cubes with ctrl held, through a perspective camera. *)
Definition cubes_persp_ctrl : Maya :=
  scene false "ctrl" [cube1; cube2] (Some [0; 0; 0; 2; 0; 0]%float).

(** The instance after a press on each scene. *)
Definition pressed (cmds : Maya) : OkPushyTool := (dispatch [Press cmds] __init__).1.

End Demo.

(** ** Activation: [activate], [deactivate] and the hotkey functions

    The tool is switched on and off outside the drag callbacks.  The host is
    asked for the current tool context and whether the dragger context
    exists; the commands sent (deleteUI, draggerContext, setToolTo) are
    returned beside the instance. *)

Definition set_former_context (v : string) (s : OkPushyTool) : OkPushyTool :=
  {| former_context := v; is_ready := is_ready s; selection := selection s;
     is_ortho := is_ortho s; is_component_mode := is_component_mode s;
     scale_compensate := scale_compensate s; initial_positions := initial_positions s;
     initial_vectors := initial_vectors s; initial_scales := initial_scales s;
     camera_pos := camera_pos s; initial_avg_pos := initial_avg_pos s;
     cam_to_avg_vec := cam_to_avg_vec s; view_direction := view_direction s;
     anchor_point := anchor_point s |}.

Record Tools : Type := {
  (** [cmds.currentCtx()] *)
  currentCtx : string;
  (** [cmds.draggerContext(name, exists=True)] *)
  draggerContext_exists : string -> bool
}.

Inductive tool_call : Type :=
| DeleteUI (name : string)                       (* cmds.deleteUI(name) *)
| CreateDraggerContext (name cursor space undoMode : string)
    (* cmds.draggerContext(name, pressCommand=self.on_press, dragCommand=self.on_drag,
       releaseCommand=self.on_release, cursor=..., space=..., undoMode=...) *)
| SetToolTo (name : string).                     (* cmds.setToolTo(name) *)

(** Truth value of a string. *)
Definition truthy_string (s : string) : bool :=
  match s with EmptyString => false | _ => true end.

Definition activate (tools : Tools) (s : OkPushyTool) : OkPushyTool * list tool_call :=
  let s1 := set_former_context (currentCtx tools) s in
  (s1,
   (if draggerContext_exists tools CONTEXT_NAME then [DeleteUI CONTEXT_NAME] else [])
   ++ [CreateDraggerContext CONTEXT_NAME "dolly" "screen" "none";
       SetToolTo CONTEXT_NAME]).

Definition deactivate (tools : Tools) (s : OkPushyTool) : OkPushyTool * list tool_call :=
  if String.eqb (currentCtx tools) CONTEXT_NAME && truthy_string (former_context s)
  then (s, [SetToolTo (former_context s)])
  else (s, []).


Definition okPushyDeactivate (tools : Tools) (ok_pushy_tool_instance : option OkPushyTool)
  : option OkPushyTool * list tool_call :=
  match ok_pushy_tool_instance with
  | Some instance =>
      let '(instance', calls) := deactivate tools instance in
      (Some instance', calls)
  | None => (None, [])
  end.

(** ** What a press reads from the host *)

(** The camera of the panel with focus, and its first shape (lines 106-107). *)
Definition camera_transform (cmds : Maya) : string :=
  modelEditor_camera cmds (default "" (getPanel_withFocus cmds)).
Definition camera_shape (cmds : Maya) : option string :=
  match listRelatives_shapes cmds (camera_transform cmds) with
  | Some shapes => shapes !! 0
  | None => None
  end.

(** The world position the host answers for an item, when it has three
    coordinates (lines 140-141). *)
Definition position_of (cmds : Maya) (item : string) : option MVector :=
  match xform_translation cmds item with
  | x :: y :: z :: _ => Some (MVector.mk x y z)
  | _ => None
  end.

(** The scale the host answers for an item (lines 164-165). *)
Definition scale_of (cmds : Maya) (item : string) : option MVector :=
  match getAttr_double3 cmds (item +:+ ".scale") with
  | (x :: y :: z :: _) :: _ => Some (MVector.mk x y z)
  | _ => None
  end.

(** The third row of the camera's world matrix (lines 147-148). *)
Definition z_axis_of (cmds : Maya) : option MVector :=
  let m := getAttr_matrix cmds (camera_transform cmds +:+ ".worldMatrix[0]") in
  match m !! 8, m !! 9, m !! 10 with
  | Some m8, Some m9, Some m10 => Some (MVector.mk m8 m9 m10)
  | _, _, _ => None
  end.

(** The centre of a bounding box [xmin, ymin, zmin, xmax, ymax, zmax]
    (line 157). *)
Definition bbox_center (bbox : list float) : option MVector :=
  match bbox with
  | b0 :: b1 :: b2 :: b3 :: b4 :: b5 :: _ =>
      Some (MVector.mk ((b0 + b3) / 2)%float ((b1 + b4) / 2)%float ((b2 + b5) / 2)%float)
  | _ => None
  end.

(** What an armed instance holds of the scene that armed it. *)
Definition armed_by (cmds : Maya) (s s' : OkPushyTool) : Prop :=
  (exists cam_shape,
      camera_shape cmds = Some cam_shape
      /\ is_ortho s' = getAttr_bool cmds (cam_shape +:+ ".orthographic"))
  /\ scale_compensate s' =
     (String.eqb (draggerContext_modifier cmds) "ctrl"
      || String.eqb (former_context s) "scaleSuperContext")
  /\ Forall2 (fun item p => position_of cmds item = Some p)
       (selection s') (initial_positions s')
  /\ (is_ortho s' = true ->
      exists z_axis,
        z_axis_of cmds = Some z_axis
        /\ view_direction s' = MVector_normal cmds (MVector.mul z_axis (-1)%float))
  /\ (is_ortho s' = false ->
      (exists bbox,
          exactWorldBoundingBox cmds (bbox_nodes cmds s') = Some bbox
          /\ bbox_center bbox = Some (initial_avg_pos s'))
      /\ MVector_of_seq cmds (xform_translation cmds (camera_transform cmds))
         = Ok (camera_pos s'))
  /\ (is_ortho s' = false ->
      scale_compensate s' && negb (is_component_mode s') = true ->
      forall item, item ∈ selection s' ->
        is_Some (scale_of cmds item) /\ initial_scales s' !! item = scale_of cmds item).

(** ** Example tool contexts *)

Module DemoTools.


(** The scale tool is current. *)
Definition from_scale_tool : Tools :=
  {| currentCtx := "scaleSuperContext"; draggerContext_exists := fun _ => false |}.

(** The tool's own context is current. *)
Definition tool_active : Tools :=
  {| currentCtx := CONTEXT_NAME; draggerContext_exists := fun _ => true |}.

(** A cube pressed with no modifier held, after activation from the scale
    tool. *)
Definition cube_pressed_from_scale_tool : OkPushyTool :=
  (dispatch [Press (Demo.scene false "none" [Demo.cube1] (Some [0; 0; 0; 2; 0; 0]%float))]
     (activate from_scale_tool __init__).1).1.

(** A viewport whose camera has no shape. *)
Definition camera_without_shape : Maya :=
  {| getPanel_withFocus := getPanel_withFocus Demo.two_vertices;
     getPanel_typeOf := getPanel_typeOf Demo.two_vertices;
     modelEditor_camera := modelEditor_camera Demo.two_vertices;
     listRelatives_shapes := fun _ => None;
     getAttr_bool := getAttr_bool Demo.two_vertices;
     ls_selection := ls_selection Demo.two_vertices;
     polyListComponentConversion_toVertex :=
       polyListComponentConversion_toVertex Demo.two_vertices;
     ls_flatten := ls_flatten Demo.two_vertices;
     ls_transform := ls_transform Demo.two_vertices;
     draggerContext_modifier := draggerContext_modifier Demo.two_vertices;
     xform_translation := xform_translation Demo.two_vertices;
     getAttr_matrix := getAttr_matrix Demo.two_vertices;
     listRelatives_shapes_fullPath := listRelatives_shapes_fullPath Demo.two_vertices;
     exactWorldBoundingBox := exactWorldBoundingBox Demo.two_vertices;
     getAttr_double3 := getAttr_double3 Demo.two_vertices;
     draggerContext_anchorPoint := draggerContext_anchorPoint Demo.two_vertices;
     MVector_of_seq := MVector_of_seq Demo.two_vertices;
     MVector_normal := MVector_normal Demo.two_vertices |}.

End DemoTools.

(** * Properties *)

(** ** Floats: multiplying by [1.0] changes nothing *)

Lemma SF64mul_one_r (f : spec_float) :
  valid_binary f = true -> SF64mul f (Prim2SF 1%float) = f.
Proof.
  change (Prim2SF 1%float) with (S754_finite false 4503599627370496 (-52)).
  destruct f as [sx | sx | | sx mx ex]; intros Hv.
  - cbn. by rewrite xorb_false_r.
  - cbn. by rewrite xorb_false_r.
  - reflexivity.
  - cbn [valid_binary SpecFloat.valid_binary bounded] in Hv.
    apply andb_prop in Hv as [Hc Hb].
    unfold canonical_mantissa in Hc. apply Z.eqb_eq in Hc.
    unfold SF64mul, SFmul. rewrite Pos.mul_comm.
    change (4503599627370496 * mx)%positive with
      (mx~0~0~0~0~0~0~0~0~0~0~0~0~0~0~0~0~0~0~0~0~0~0~0~0~0~0
         ~0~0~0~0~0~0~0~0~0~0~0~0~0~0~0~0~0~0~0~0~0~0~0~0~0~0)%positive.
    unfold binary_round_aux, shr_fexp.
    set (m52 := Z.pos _).
    assert (Hd : Zdigits2 m52 = (Z.pos (digits2_pos mx) + 52)%Z).
    { subst m52. cbn [Zdigits2 digits2_pos]. lia. }
    rewrite Hd.
    replace (Z.pos (digits2_pos mx) + 52 + (ex + -52))%Z
      with (Z.pos (digits2_pos mx) + ex)%Z by lia.
    rewrite Hc.
    replace (ex - (ex + -52))%Z with 52%Z by lia.
    subst m52. cbn [shr shr_record_of_loc SpecFloat.iter_pos shr_1 orb].
    cbn [shr_m loc_of_shr_record round_nearest_even].
    replace (ex + -52 + 52)%Z with ex by lia.
    cbn [Zdigits2]. rewrite Hc, Z.sub_diag. cbn [shr shr_m].
    by rewrite Hb, xorb_false_r.
Qed.

Lemma float_mul_1_r (a : float) : (a * 1)%float = a.
Proof.
  apply Prim2SF_inj. rewrite mul_spec. apply SF64mul_one_r, Prim2SF_valid.
Qed.

Lemma MVector_mul_1 (v : MVector) : MVector.mul v 1%float = v.
Proof. destruct v. unfold MVector.mul. cbn. by rewrite !float_mul_1_r. Qed.

(** ** Identifiers *)

Lemma prefix_cons_head (c : Ascii.ascii) (sub s : string) :
  String.prefix (String c sub) s = true -> String.prefix (String c EmptyString) s = true.
Proof.
  destruct s as [|c' s']; cbn; [done|].
  destruct (Ascii.ascii_dec c c'); [|done]. by destruct s'.
Qed.

Lemma str_in_cons_head (c : Ascii.ascii) (sub s : string) :
  str_in (String c sub) s = true -> str_in (String c EmptyString) s = true.
Proof.
  induction s as [|c' s' IH].
  - cbn. done.
  - cbn [str_in].
    destruct (String.prefix (String c sub) (String c' s')) eqn:Hp.
    + intros _. by rewrite (prefix_cons_head _ _ _ Hp).
    + intros H. rewrite (IH H). by case_match.
Qed.

(** A face or an edge identifier is a component identifier. *)
Lemma face_or_edge_is_component (item : string) :
  is_face_or_edge item = true -> is_component item = true.
Proof.
  unfold is_face_or_edge, is_component.
  intros [H|H]%orb_true_iff; exact (str_in_cons_head _ _ _ H).
Qed.

Lemma existsb_face_or_edge_component (items : list string) :
  existsb is_face_or_edge items = true -> existsb is_component items = true.
Proof.
  rewrite !existsb_exists. intros (item & Hin & H).
  exists item. split; [done|]. by apply face_or_edge_is_component.
Qed.

Lemma string_app_cons (c : Ascii.ascii) (a b : string) :
  String c a +:+ b = String c (a +:+ b).
Proof. reflexivity. Qed.

Lemma prefix_spec (a b : string) :
  String.prefix a b = true <-> exists post, b = a +:+ post.
Proof.
  revert b. induction a as [|c a IH]; intros b.
  - split; [intros _; by exists b|]. intros _. by destruct b.
  - destruct b as [|c' b]; cbn.
    + split; [done|]. by intros [post Hpost].
    + destruct (Ascii.ascii_dec c c') as [->|Hne].
      * rewrite IH. split; intros [post Hpost]; exists post;
          rewrite string_app_cons in *; congruence.
      * split; [done|]. intros [post Hpost]. rewrite string_app_cons in Hpost. congruence.
Qed.

Lemma str_in_app (pre sub post : string) : str_in sub (pre +:+ sub +:+ post) = true.
Proof.
  induction pre as [|c pre IH].
  - assert (Hp : String.prefix sub ("" +:+ sub +:+ post) = true)
      by (apply prefix_spec; by exists post).
    destruct ("" +:+ sub +:+ post); cbn [str_in]; by rewrite Hp.
  - rewrite string_app_cons. cbn [str_in]. rewrite IH. by case_match.
Qed.

(** The identifier of a vertex is a vertex identifier. *)
Lemma vertex_identifier_is_vertex (v : vertex) : is_vertex (vertex_identifier v) = true.
Proof. apply str_in_app. Qed.

(** The modelled conversion answers vertex identifiers only, each once, as
    many as the distinct vertices touched. *)
Lemma convertToVertices_vertices (mesh : string -> list vertex) (items : list string) :
  Forall (fun item => is_vertex item = true) (convertToVertices mesh items)
  /\ NoDup (convertToVertices mesh items)
  /\ length (convertToVertices mesh items) = size (touched mesh items).
Proof.
  unfold convertToVertices, touched. split; [|split].
  - apply Forall_forall. intros item Hin.
    apply elem_of_remove_dups, list_elem_of_fmap in Hin as (v & -> & _).
    apply vertex_identifier_is_vertex.
  - apply NoDup_remove_dups.
  - rewrite <- (size_list_to_set (C:=gset string)) by apply NoDup_remove_dups.
    f_equal. apply set_eq. intros item.
    by rewrite !elem_of_list_to_set, elem_of_remove_dups.
Qed.

(** ** Equations of the callback monad *)

Lemma bind_ret {A B} (a : A) (f : A -> M B) s t : bind (ret a) f s t = f a s t.
Proof. reflexivity. Qed.

Lemma bind_raise {A B} (e : exn) (f : A -> M B) s t :
  bind (raise e) f s t = (Raise e, s, t).
Proof. reflexivity. Qed.

Lemma bind_get {A B} (field : OkPushyTool -> A) (f : A -> M B) s t :
  bind (get field) f s t = f (field s) s t.
Proof. reflexivity. Qed.

Lemma bind_assign {B} upd (f : unit -> M B) s t : bind (assign upd) f s t = f tt (upd s) t.
Proof. reflexivity. Qed.

Lemma bind_send {B} c (f : unit -> M B) s t : bind (send c) f s t = f tt s (t ++ [c]).
Proof. reflexivity. Qed.

Lemma bind_getitem {A B} (l : list A) i (f : A -> M B) s t :
  bind (getitem l i) f s t =
  match l !! i with Some a => f a s t | None => (Raise IndexError, s, t) end.
Proof. unfold getitem. by destruct (l !! i). Qed.

Lemma bind_getitem_opt {A B} (o : option (list A)) i (f : A -> M B) s t :
  bind (getitem_opt o i) f s t =
  match o with
  | Some l => match l !! i with Some a => f a s t | None => (Raise IndexError, s, t) end
  | None => (Raise TypeError, s, t)
  end.
Proof. destruct o; [apply bind_getitem|done]. Qed.

Lemma bind_lift {A B} (r : result A) (f : A -> M B) s t :
  bind (lift r) f s t = match r with Ok a => f a s t | Raise e => (Raise e, s, t) end.
Proof. by destruct r. Qed.

Lemma bind_bind {A B C} (m : M A) (f : A -> M B) (g : B -> M C) s t :
  bind (bind m f) g s t = bind m (fun a => bind (f a) g) s t.
Proof. unfold bind. by destruct (m s t) as [[[a|e] s1] t1]. Qed.

Lemma bind_run {A B} (m : M A) (f : A -> M B) s t r s1 t1 :
  m s t = (r, s1, t1) ->
  bind m f s t = match r with Ok a => f a s1 t1 | Raise e => (Raise e, s1, t1) end.
Proof. unfold bind. by intros ->. Qed.

Create Rewrite HintDb py.
#[local] Hint Rewrite @bind_bind @bind_ret @bind_raise @bind_get @bind_assign @bind_send
  @bind_getitem @bind_getitem_opt @bind_lift : py.

(** Projections of assigned fields. *)
Ltac fields :=
  cbn [former_context is_ready selection is_ortho is_component_mode scale_compensate
       initial_positions initial_vectors initial_scales camera_pos initial_avg_pos
       cam_to_avg_vec view_direction anchor_point
       set_is_ready set_selection set_is_ortho set_is_component_mode set_scale_compensate
       set_initial_positions set_initial_vectors set_initial_scales set_camera_pos
       set_initial_avg_pos set_cam_to_avg_vec set_view_direction set_anchor_point] in *.

Lemma set_initial_positions_same s : set_initial_positions (initial_positions s) s = s.
Proof. by destruct s. Qed.

Lemma set_initial_scales_same s : set_initial_scales (initial_scales s) s = s.
Proof. by destruct s. Qed.

(** ** The loops of [on_press] *)

(** The loop of lines 139-141 writes [initial_positions] only, sends nothing
    and, when it ends, has appended one position per target. *)
Lemma record_initial_positions_spec (cmds : Maya) (s : OkPushyTool) (t : list call) :
  exists r ps,
    record_initial_positions cmds s t = (r, set_initial_positions ps s, t)
    /\ (r = Ok tt -> length ps = length (initial_positions s) + length (selection s)).
Proof.
  unfold record_initial_positions. rewrite bind_get.
  generalize (selection s) as l. intros l. revert s.
  induction l as [|item l IH]; intros s.
  - exists (Ok tt), (initial_positions s). rewrite set_initial_positions_same.
    cbn. split; [done|lia].
  - cbn [for_]. rewrite !bind_bind, bind_getitem.
    destruct (xform_translation cmds item) as [|x [|y [|z pos]]];
      cbn [lookup list_lookup];
      try (exists (Raise IndexError), (initial_positions s);
           by rewrite set_initial_positions_same).
    repeat (autorewrite with py; cbn [lookup list_lookup]).
    destruct (IH (set_initial_positions (initial_positions s ++ [MVector.mk x y z]) s))
      as (r & ps & Heq & Hlen).
    exists r, ps. rewrite Heq. split; [done|].
    intros Hr. rewrite (Hlen Hr). fields. rewrite length_app. cbn. lia.
Qed.

(** The loop of lines 163-165 writes [initial_scales] only, sends nothing and
    adds entries for the items it runs over only. *)
Lemma for_scales_spec (cmds : Maya) (l : list string) (s : OkPushyTool) (t : list call) :
  exists r m,
    for_ l (fun item =>
      scale_val ← getitem (getAttr_double3 cmds (item +:+ ".scale")) 0 ;
      x ← getitem scale_val 0 ;
      y ← getitem scale_val 1 ;
      z ← getitem scale_val 2 ;
      self_initial_scales ← get initial_scales ;
      assign (set_initial_scales (<[item := MVector.mk x y z]> self_initial_scales))) s t
    = (r, set_initial_scales m s, t)
    /\ (forall item, is_Some (m !! item) -> is_Some (initial_scales s !! item) \/ item ∈ l).
Proof.
  revert s. induction l as [|item l IH]; intros s.
  - exists (Ok tt), (initial_scales s). rewrite set_initial_scales_same.
    cbn. split; [done|tauto].
  - cbn [for_]. rewrite !bind_bind, bind_getitem.
    destruct (getAttr_double3 cmds (item +:+ ".scale") !! 0) as [scale_val|].
    2:{ exists (Raise IndexError), (initial_scales s).
        rewrite set_initial_scales_same. split; [done|tauto]. }
    autorewrite with py.
    destruct scale_val as [|x [|y [|z rest]]]; cbn [lookup list_lookup];
      try (exists (Raise IndexError), (initial_scales s);
           rewrite set_initial_scales_same; split; [done|tauto]).
    repeat (autorewrite with py; cbn [lookup list_lookup]).
    destruct (IH (set_initial_scales (<[item := MVector.mk x y z]> (initial_scales s)) s))
      as (r & m & Heq & Hsub).
    exists r, m. rewrite Heq. split; [done|].
    intros k Hk. destruct (Hsub k Hk) as [Hin|Hin].
    + fields. destruct (decide (item = k)) as [->|Hne].
      * right. left.
      * rewrite lookup_insert_ne in Hin by done. by left.
    + right. by right.
Qed.

Lemma record_initial_scales_spec (cmds : Maya) (s : OkPushyTool) (t : list call) :
  exists r m,
    record_initial_scales cmds s t = (r, set_initial_scales m s, t)
    /\ (forall item, is_Some (m !! item) -> is_Some (initial_scales s !! item) \/ item ∈ selection s)
    /\ (scale_compensate s && negb (is_component_mode s) = false -> m = initial_scales s).
Proof.
  unfold record_initial_scales. rewrite !bind_get.
  destruct (scale_compensate s && negb (is_component_mode s)).
  - rewrite bind_get.
    destruct (for_scales_spec cmds (selection s) s t) as (r & m & Heq & Hsub).
    by exists r, m.
  - exists (Ok tt), (initial_scales s). rewrite set_initial_scales_same.
    cbn. split; [done|]. split; [tauto|done].
Qed.

(** ** [on_press] *)

Lemma resolve_selection_spec cmds s t :
  resolve_selection cmds (ls_selection cmds) s t =
  (Ok tt,
   set_selection (resolved cmds)
     (set_is_component_mode (existsb is_component (ls_selection cmds)) s), t).
Proof.
  unfold resolve_selection, resolved.
  rewrite bind_assign, bind_get.
  change (is_component_mode (set_is_component_mode ?b s)) with b.
  change (str_in ".") with is_component.
  change (fun s0 : string => str_in ".f[" s0 || str_in ".e[" s0) with is_face_or_edge.
  by destruct (existsb is_component (ls_selection cmds)),
             (existsb is_face_or_edge (ls_selection cmds)).
Qed.

Ltac lookups :=
  repeat (match goal with
          | |- context [match ?l !! ?i with _ => _ end] =>
              destruct (l !! i); [|by apply press_raised]
          end; autorewrite with py).

(** Every press ends in one of the three outcomes. *)
Lemma on_press_outcome (cmds : Maya) (s : OkPushyTool) :
  let '(r, s', tr) := run (on_press cmds) s in press_outcome cmds s r s' tr.
Proof.
  unfold run, on_press, _reset_state, arm.
  autorewrite with py.
  fold (no_viewport cmds).
  destruct (no_viewport cmds) eqn:Hvp.
  { cbn. apply press_aborted; [done|done|]. intros; done. }
  autorewrite with py.
  destruct (listRelatives_shapes cmds _) as [shapes|]; [|by apply press_raised].
  destruct (shapes !! 0) as [cam_shape|]; [|by apply press_raised].
  autorewrite with py.
  destruct (ls_selection cmds) as [|item0 raw] eqn:Hraw; cbn [truthy_list negb].
  { cbn. apply press_aborted; [done|done|]. intros; done. }
  rewrite <- Hraw.
  erewrite bind_run by apply resolve_selection_spec.
  autorewrite with py.
  change (selection (set_selection ?x _)) with x.
  destruct (resolved cmds) as [|item sel] eqn:Hsel; cbn [negb].
  { cbn. apply press_aborted; [done|done|]. intros; done. }
  rewrite <- Hsel. autorewrite with py.
  match goal with
  | |- context [bind (record_initial_positions cmds) _ ?s1 ?t1] =>
      destruct (record_initial_positions_spec cmds s1 t1) as (r & ps & Heq & Hlen)
  end.
  erewrite bind_run by exact Heq. clear Heq.
  destruct r as [[]|e]; [|by apply press_raised].
  specialize (Hlen eq_refl). fields. cbn [length Nat.add] in Hlen.
  autorewrite with py.
  change (initial_positions (set_initial_positions ?x _)) with x.
  destruct ps as [|p ps]; cbn [negb].
  { rewrite Hsel in Hlen. done. }
  autorewrite with py. fields.
  destruct (getAttr_bool cmds (cam_shape +:+ ".orthographic")) eqn:Hortho.
  - (* orthographic camera *)
    autorewrite with py. lookups.
    apply press_armed; unfold consistent, bbox_nodes; fields; try done.
    + repeat split; [done|done|]. intros k [v Hk]. by rewrite lookup_empty in Hk.
    + by rewrite Hraw.
    + by rewrite Hsel.
  - (* perspective camera *)
    autorewrite with py. fields.
    destruct (truthy_list (exactWorldBoundingBox cmds _)) eqn:Hbbox; cbn [negb].
    2:{ cbn. apply press_aborted; [done|done|]. intros _ _ _. split; [done|].
        unfold bbox_nodes; fields. exact Hbbox. }
    destruct (exactWorldBoundingBox cmds _) as [bbox|] eqn:Hbox; [|done].
    autorewrite with py. lookups.
    destruct (MVector_of_seq cmds _) as [cam_pos|e]; [|by apply press_raised].
    autorewrite with py.
    match goal with
    | |- context [bind (record_initial_scales cmds) _ ?s1 ?t1] =>
        destruct (record_initial_scales_spec cmds s1 t1) as (r & m & Heq & Hsub & Hkeep)
    end.
    erewrite bind_run by exact Heq. clear Heq.
    destruct r as [[]|e]; [|by apply press_raised].
    autorewrite with py.
    apply press_armed; unfold consistent, bbox_nodes; fields; try done.
    + repeat split; [done|by rewrite length_map|].
      intros k Hk. destruct (Hsub k Hk) as [[v Hv]|Hin]; [|done].
      by rewrite lookup_empty in Hv.
    + by rewrite Hraw.
    + by rewrite Hsel.
    + intros _. by rewrite Hbox.
Qed.

(** A press starts from a reset instance: what was left of an earlier session
    plays no part in it. *)
Lemma on_press_from_idle (cmds : Maya) (s : OkPushyTool) :
  run (on_press cmds) s = run (on_press cmds) (idle (former_context s)).
Proof. reflexivity. Qed.

Lemma press_armed_well_armed cmds s s' tr r :
  press_outcome cmds s r s' tr -> is_ready s' = true -> well_armed s'.
Proof.
  intros [? Hr|? ? Hr|? _ _ Hc _ _ _ Hne _ Ho Hs Hp _] Hready; [congruence..|].
  repeat split; try done; try apply Hc; by apply Hp.
Qed.

(** ** [on_drag] *)

(** The orthographic loop (lines 180-182) moves target [i] to
    [initial_positions[i] + total_move_vector]. *)
Lemma ortho_loop (s : OkPushyTool) (total_move_vector : MVector)
    (l : list string) (pre ps : list MVector) (t : list call) :
  initial_positions s = pre ++ ps -> length ps = length l ->
  for_enumerate (length pre) l (fun i item =>
      self_initial_positions ← get initial_positions ;
      p ← getitem self_initial_positions i ;
      let new_pos := MVector.add p total_move_vector in
      send (Move (MVector.x new_pos) (MVector.y new_pos) (MVector.z new_pos) item)) s t
  = (Ok tt, s,
     t ++ zip_with (fun item p => move_to (MVector.add p total_move_vector) item) l ps).
Proof.
  revert pre ps t. induction l as [|item l IH]; intros pre ps t Hps Hlen.
  - cbn. by rewrite app_nil_r.
  - destruct ps as [|p ps]; [done|].
    cbn [for_enumerate]. autorewrite with py.
    rewrite Hps, list_lookup_middle by done.
    autorewrite with py.
    replace (S (length pre)) with (length (pre ++ [p])) by (rewrite length_app; cbn; lia).
    rewrite (IH (pre ++ [p]) ps).
    + cbn [zip_with]. by rewrite <- app_assoc.
    + by rewrite <- app_assoc.
    + cbn in Hlen. lia.
Qed.

(** The perspective loop (lines 187-196) moves target [i] to
    [new_avg_pos + initial_vectors[i] * scale_factor] and scales it when it
    has an initial scale. *)
Lemma perspective_loop (s : OkPushyTool) (new_avg_pos : MVector) (change_depth : float)
    (l : list string) (pre vs : list MVector) (t : list call) :
  initial_vectors s = pre ++ vs -> length vs = length l ->
  for_enumerate (length pre) l (fun i item =>
      self_scale_compensate ← get scale_compensate ;
      let scale_factor := if self_scale_compensate : bool then change_depth else 1%float in
      self_initial_vectors ← get initial_vectors ;
      v ← getitem self_initial_vectors i ;
      let offset_vec := MVector.mul v scale_factor in
      let new_pos := MVector.add new_avg_pos offset_vec in
      send (Move (MVector.x new_pos) (MVector.y new_pos) (MVector.z new_pos) item) ;;
      self_initial_scales ← get initial_scales ;
      match self_initial_scales !! item with
      | Some initial_scale =>
          let new_scale := MVector.mul initial_scale scale_factor in
          send (Scale (MVector.x new_scale) (MVector.y new_scale) (MVector.z new_scale) item)
      | None => ret tt
      end) s t
  = (Ok tt, s,
     t ++ concat
       (zip_with
          (fun item v =>
             let scale_factor := if scale_compensate s then change_depth else 1%float in
             move_to (MVector.add new_avg_pos (MVector.mul v scale_factor)) item
             :: match initial_scales s !! item with
                | Some initial_scale =>
                    [scale_to (MVector.mul initial_scale scale_factor) item]
                | None => []
                end)
          l vs)).
Proof.
  revert pre vs t. induction l as [|item l IH]; intros pre vs t Hvs Hlen.
  - cbn. by rewrite app_nil_r.
  - destruct vs as [|v vs]; [done|].
    cbn [for_enumerate]. autorewrite with py.
    rewrite Hvs, list_lookup_middle by done.
    autorewrite with py.
    replace (S (length pre)) with (length (pre ++ [v])) by (rewrite length_app; cbn; lia).
    cbn [zip_with concat].
    destruct (initial_scales s !! item) as [initial_scale|]; autorewrite with py.
    + rewrite (IH (pre ++ [v]) vs).
      * by rewrite <- !app_assoc.
      * by rewrite <- app_assoc.
      * cbn in Hlen. lia.
    + rewrite (IH (pre ++ [v]) vs).
      * by rewrite <- !app_assoc.
      * by rewrite <- app_assoc.
      * cbn in Hlen. lia.
Qed.

(** A loop whose body leaves the instance alone leaves it alone. *)
Lemma for_enumerate_state {A} (body : nat -> A -> M unit) :
  (forall i a s t, (body i a s t).1.2 = s) ->
  forall l i s t, (for_enumerate i l body s t).1.2 = s.
Proof.
  intros Hbody l. induction l as [|a l IH]; intros i s t; [done|].
  cbn [for_enumerate]. unfold bind.
  specialize (Hbody i a s t).
  destruct (body i a s t) as [[[[]|e] s1] t1]; cbn in Hbody; subst s1; [|done].
  apply IH.
Qed.

(** [on_drag] never writes a field. *)
Lemma on_drag_state (drag_point : list float) (s : OkPushyTool) (t : list call) :
  (on_drag drag_point s t).1.2 = s.
Proof.
  unfold on_drag. autorewrite with py.
  destruct (is_ready s); cbn [negb]; [|done].
  autorewrite with py.
  destruct (drag_point !! 0) as [d0|]; [|done].
  autorewrite with py.
  destruct (anchor_point s !! 0) as [a0|]; [|done].
  autorewrite with py.
  destruct (is_ortho s).
  - autorewrite with py.
    match goal with
    | |- context [bind (for_enumerate 0 ?l ?body) _ ?s1 ?t1] =>
        assert (Hbody : forall i a s t, (body i a s t).1.2 = s)
          by (intros i a s' t'; cbn beta; autorewrite with py;
              by destruct (initial_positions s' !! i));
        pose proof (for_enumerate_state body Hbody l 0 s1 t1) as Hloop;
        unfold bind at 1;
        destruct (for_enumerate 0 l body s1 t1) as [[[[]|e] s2] t2]
    end; cbn in Hloop; by subst.
  - autorewrite with py.
    match goal with
    | |- context [bind (for_enumerate 0 ?l ?body) _ ?s1 ?t1] =>
        assert (Hbody : forall i a s t, (body i a s t).1.2 = s)
          by (intros i a s' t'; cbn beta; autorewrite with py;
              destruct (initial_vectors s' !! i); [|done];
              autorewrite with py; by destruct (initial_scales s' !! a));
        pose proof (for_enumerate_state body Hbody l 0 s1 t1) as Hloop;
        unfold bind at 1;
        destruct (for_enumerate 0 l body s1 t1) as [[[[]|e] s2] t2]
    end; cbn in Hloop; by subst.
Qed.

(** A drag on an idle instance does nothing at all. *)
Lemma on_drag_not_ready (drag_point : list float) (s : OkPushyTool) :
  is_ready s = false -> run (on_drag drag_point) s = (Ok tt, s, []).
Proof. intros Hr. unfold run, on_drag. autorewrite with py. by rewrite Hr. Qed.

(** An orthographic drag, when the per-target data agree with the targets. *)
Lemma on_drag_ortho (drag_point : list float) (s : OkPushyTool) (drag_x anchor_x : float) :
  is_ready s = true -> is_ortho s = true ->
  length (initial_positions s) = length (selection s) ->
  drag_point !! 0 = Some drag_x -> anchor_point s !! 0 = Some anchor_x ->
  run (on_drag drag_point) s = (Ok tt, s, ortho_calls s (delta drag_x anchor_x) ++ [Refresh]).
Proof.
  intros Hr Ho Hlen Hd Ha. unfold run, on_drag. autorewrite with py.
  rewrite Hr. cbn [negb]. autorewrite with py. rewrite Hd. autorewrite with py.
  rewrite Ha. autorewrite with py. rewrite Ho. autorewrite with py.
  erewrite bind_run by (apply (ortho_loop s _ (selection s) [] (initial_positions s)); done).
  by autorewrite with py.
Qed.

(** A perspective drag, when the per-target data agree with the targets. *)
Lemma on_drag_perspective (drag_point : list float) (s : OkPushyTool)
    (drag_x anchor_x : float) :
  is_ready s = true -> is_ortho s = false ->
  length (initial_vectors s) = length (selection s) ->
  drag_point !! 0 = Some drag_x -> anchor_point s !! 0 = Some anchor_x ->
  run (on_drag drag_point) s
  = (Ok tt, s, perspective_calls s (delta drag_x anchor_x) ++ [Refresh]).
Proof.
  intros Hr Ho Hlen Hd Ha. unfold run, on_drag. autorewrite with py.
  rewrite Hr. cbn [negb]. autorewrite with py. rewrite Hd. autorewrite with py.
  rewrite Ha. autorewrite with py. rewrite Ho. autorewrite with py.
  erewrite bind_run
    by (apply (perspective_loop s _ _ (selection s) [] (initial_vectors s)); done).
  by autorewrite with py.
Qed.

(** ** [on_release] *)

Lemma on_release_run (s : OkPushyTool) :
  run on_release s = (Ok tt, idle (former_context s), [UndoCloseChunk]).
Proof. reflexivity. Qed.

(** ** Sessions *)

(** A callback leaves the instance idle or well armed. *)
Lemma handle_well_armed (e : event) (s : OkPushyTool) :
  (is_ready s = true -> well_armed s) ->
  is_ready (run (handle e) s).1.2 = true -> well_armed (run (handle e) s).1.2.
Proof.
  intros Hs. destruct e as [cmds|drag_point|]; cbn [handle].
  - pose proof (on_press_outcome cmds s) as Hout.
    destruct (run (on_press cmds) s) as [[r s'] tr]. cbn.
    by apply press_armed_well_armed with cmds s tr r.
  - unfold run. by rewrite on_drag_state.
  - by rewrite on_release_run.
Qed.

Lemma handle_former_context (e : event) (s : OkPushyTool) :
  former_context (run (handle e) s).1.2 = former_context s.
Proof.
  destruct e as [cmds|drag_point|]; cbn [handle].
  - pose proof (on_press_outcome cmds s) as Hout.
    destruct (run (on_press cmds) s) as [[r s'] tr]. cbn. by destruct Hout.
  - unfold run. by rewrite on_drag_state.
  - by rewrite on_release_run.
Qed.

Lemma dispatch_well_armed (es : list event) (s0 s : OkPushyTool) (t : list call) :
  (is_ready s0 = true -> well_armed s0) ->
  dispatch es s0 = (s, t) -> is_ready s = true -> well_armed s.
Proof.
  revert s0 t. induction es as [|e es IH]; intros s0 t Hs0; cbn [dispatch].
  - intros [= <- <-]. done.
  - pose proof (handle_well_armed e s0 Hs0) as H1.
    destruct (run (handle e) s0) as [[r s1] t1]. cbn in H1.
    destruct (dispatch es s1) as [s2 t2] eqn:Hd.
    intros [= <- <-]. by apply (IH s1 t2).
Qed.

(** Whatever the events so far, a ready session is well armed. *)
Lemma session_well_armed (es : list event) (ctx : string) (s : OkPushyTool) (t : list call) :
  dispatch es (idle ctx) = (s, t) -> is_ready s = true -> well_armed s.
Proof. apply dispatch_well_armed. done. Qed.

Lemma dispatch_former_context (es : list event) (s0 s : OkPushyTool) (t : list call) :
  dispatch es s0 = (s, t) -> former_context s = former_context s0.
Proof.
  revert s0 t. induction es as [|e es IH]; intros s0 t; cbn [dispatch].
  - by intros [= <- <-].
  - pose proof (handle_former_context e s0) as H1.
    destruct (run (handle e) s0) as [[r s1] t1]. cbn in H1.
    destruct (dispatch es s1) as [s2 t2] eqn:Hd.
    intros [= <- <-]. rewrite <- H1. by apply (IH s1 t2).
Qed.

(** The undo chunks of a press: one is opened; a press that returns without
    arming closes it, a press that arms or raises leaves it open. *)
Lemma on_press_chunks (cmds : Maya) (s s' : OkPushyTool) (r : result unit) (tr : list call) :
  run (on_press cmds) s = (r, s', tr) ->
  opens tr = 1
  /\ closes tr = (if is_ready s' then 0 else match r with Ok _ => 1 | Raise _ => 0 end).
Proof.
  intros Hrun. pose proof (on_press_outcome cmds s) as Hout. rewrite Hrun in Hout.
  destruct Hout as [? ->|? ? ->|? ->]; by cbn.
Qed.

Lemma ortho_calls_moves (s : OkPushyTool) (d : float) :
  Forall (fun c => is_move c = true) (ortho_calls s d).
Proof.
  unfold ortho_calls. generalize (initial_positions s).
  induction (selection s) as [|item l IH]; intros [|p ps]; cbn; constructor; auto.
Qed.

(** Without scale compensation and without recorded scales, a perspective
    drag is one move per target, by its unscaled offset. *)
Lemma perspective_calls_rigid (s : OkPushyTool) (d : float) :
  scale_compensate s = false -> initial_scales s = ∅ ->
  perspective_calls s d =
  zip_with
    (fun item v =>
       move_to
         (MVector.add
            (MVector.add (camera_pos s) (MVector.mul (cam_to_avg_vec s) (1 + d)%float)) v)
         item)
    (selection s) (initial_vectors s).
Proof.
  intros Hsc Hsn. unfold perspective_calls. rewrite Hsc, Hsn.
  generalize (initial_vectors s).
  induction (selection s) as [|item l IH]; intros [|v vs]; cbn [zip_with concat]; try done.
  rewrite lookup_empty, MVector_mul_1, IH. done.
Qed.

(** ** Examples *)

(** The scenario of the specification: vertices at (0,0,0) and (2,0,0), a
    perspective camera at (0,0,10), a drag by 100 pixels (delta 0.5, depth
    factor 1.5): the vertices go to (0.5,0,-5) and (2.5,0,-5). *)
Example two_vertices_pushed :
  (dispatch [Press Demo.two_vertices; Drag [200; 50; 0]%float] __init__).2
  = [UndoOpenChunk;
     Move 0.5 0 (-5) Demo.vtx0; Move 2.5 0 (-5) Demo.vtx1; Refresh].
Proof. vm_compute. reflexivity. Qed.

(** A drag by -400 pixels: the depth factor is -1 and the vertices pass to
    the far side of the camera. *)
Example two_vertices_pulled_through :
  (dispatch [Press Demo.two_vertices; Drag [-300; 50; 0]%float] __init__).2
  = [UndoOpenChunk;
     Move (-2) 0 20 Demo.vtx0; Move 0 0 20 Demo.vtx1; Refresh].
Proof. vm_compute. reflexivity. Qed.

(** Two cubes with ctrl held, perspective: moved and scaled by 1.5. *)
Example cubes_scale_compensated :
  (dispatch [Press Demo.cubes_persp_ctrl; Drag [200; 50; 0]%float] __init__).2
  = [UndoOpenChunk;
     Move 0 0 (-5) Demo.cube1; Scale 1.5 3 6 Demo.cube1;
     Move 3 0 (-5) Demo.cube2; Scale 1.5 3 6 Demo.cube2; Refresh].
Proof. vm_compute. reflexivity. Qed.

(** A second press before the release opens a second chunk; the release
    closes one. *)
Example press_twice_then_release :
  (dispatch [Press Demo.two_vertices; Press Demo.two_vertices; Release] __init__).2
  = [UndoOpenChunk; UndoOpenChunk; UndoCloseChunk].
Proof. vm_compute. reflexivity. Qed.

(** * The claims *)

(** C1, as stated, fails: a press with nothing selected does open an undo
    chunk (and closes it again). *)
Lemma press_empty_selection_opens_chunk :
  ~ (ls_selection Demo.nothing_selected = [] ->
     let '(_, s', tr) := run (on_press Demo.nothing_selected) __init__ in
     is_ready s' = false
     /\ opens tr = 0
     /\ Forall (fun c => is_mutation c = false) tr).
Proof. intros H. specialize (H eq_refl). vm_compute in H. by destruct H as (_ & H & _). Qed.

(** C1, amended: a press never moves or scales anything and opens exactly one
    undo chunk; when it returns without arming the session it has closed that
    chunk again, so its commands are [openChunk; closeChunk]; and each
    validation failure (no viewport, empty selection, no resolved target, no
    bounding box in perspective) leaves [is_ready] false. *)
Theorem on_press_validation_failure
    (cmds : Maya) (s s' : OkPushyTool) (r : result unit) (tr : list call) :
  run (on_press cmds) s = (r, s', tr) ->
  Forall (fun c => is_mutation c = false) tr
  /\ opens tr = 1
  /\ (r = Ok tt -> is_ready s' = false -> tr = [UndoOpenChunk; UndoCloseChunk])
  /\ (no_viewport cmds = true -> r = Ok tt /\ is_ready s' = false)
  /\ (ls_selection cmds = [] -> is_ready s' = false)
  /\ (selection s' = [] -> is_ready s' = false)
  /\ (is_ortho s' = false ->
      truthy_list (exactWorldBoundingBox cmds (bbox_nodes cmds s')) = false ->
      is_ready s' = false).
Proof.
  intros Hrun. pose proof (on_press_outcome cmds s) as Hout. rewrite Hrun in Hout.
  destruct Hout as [? Hr _ _|? ? Hr _ Hvp|? Hr _ _ Hvp Hraw _ Hsel _ _ _ Hp _].
  - repeat split; try done. repeat constructor.
  - repeat split; try done; try congruence. repeat constructor.
  - repeat split; try done; try congruence.
    + repeat constructor.
    + intros Ho Hb. destruct (Hp Ho) as [Hb' _]. congruence.
Qed.

Lemma on_press_validation_failure_witness :
  (* no viewport *)
  (is_ready (run (on_press Demo.outliner_focus) __init__).1.2 = false
   /\ (run (on_press Demo.outliner_focus) __init__).2 = [UndoOpenChunk; UndoCloseChunk])
  (* empty selection *)
  /\ (is_ready (run (on_press Demo.nothing_selected) __init__).1.2 = false
      /\ (run (on_press Demo.nothing_selected) __init__).2 = [UndoOpenChunk; UndoCloseChunk])
  (* no target resolved *)
  /\ (is_ready (run (on_press Demo.shape_selected) __init__).1.2 = false
      /\ (run (on_press Demo.shape_selected) __init__).2 = [UndoOpenChunk; UndoCloseChunk])
  (* no bounding box *)
  /\ (is_ready (run (on_press Demo.no_bounding_box) __init__).1.2 = false
      /\ (run (on_press Demo.no_bounding_box) __init__).2 = [UndoOpenChunk; UndoCloseChunk]).
Proof.
  pose proof (on_press_validation_failure Demo.outliner_focus __init__ _ _ _ eq_refl)
    as (_ & _ & Hclosed1 & Hviewport & _).
  pose proof (on_press_validation_failure Demo.nothing_selected __init__ _ _ _ eq_refl)
    as (_ & _ & Hclosed2 & _ & Hempty & _).
  pose proof (on_press_validation_failure Demo.shape_selected __init__ _ _ _ eq_refl)
    as (_ & _ & Hclosed3 & _ & _ & Htargets & _).
  pose proof (on_press_validation_failure Demo.no_bounding_box __init__ _ _ _ eq_refl)
    as (_ & _ & Hclosed4 & _ & _ & _ & Hbbox).
  specialize (Hviewport eq_refl) as [_ Hidle1].
  specialize (Hempty eq_refl).
  specialize (Htargets eq_refl).
  specialize (Hbbox eq_refl eq_refl).
  exact (conj (conj Hidle1 (Hclosed1 eq_refl Hidle1))
           (conj (conj Hempty (Hclosed2 eq_refl Hempty))
              (conj (conj Htargets (Hclosed3 eq_refl Htargets))
                 (conj Hbbox (Hclosed4 eq_refl Hbbox))))).
Defined.

(** C2: in an armed orthographic session, whatever events led to it, a drag
    to [drag_point] computes [d = (drag_point.x - anchor_point.x) * SENSITIVITY]
    and moves every target [i] to [initial_positions[i] + view_direction * d * 2]:
    one move per target, in order, all by the same vector, then a refresh. *)
Theorem on_drag_orthographic_translation
    (es : list event) (ctx : string) (s : OkPushyTool) (t : list call)
    (drag_point : list float) (drag_x anchor_x : float) :
  dispatch es (idle ctx) = (s, t) ->
  is_ready s = true ->
  is_ortho s = true ->
  drag_point !! 0 = Some drag_x ->
  anchor_point s !! 0 = Some anchor_x ->
  let d := ((drag_x - anchor_x) * SENSITIVITY)%float in
  let translation := MVector.mul (MVector.mul (view_direction s) d) 2%float in
  length (initial_positions s) = length (selection s)
  /\ run (on_drag drag_point) s =
     (Ok tt, s,
      zip_with (fun item p => move_to (MVector.add p translation) item)
        (selection s) (initial_positions s)
      ++ [Refresh]).
Proof.
  intros Hd Hr Ho Hx Ha d translation.
  destruct (session_well_armed es ctx s t Hd Hr) as ((Hlen & _) & _).
  split; [done|]. by apply on_drag_ortho.
Qed.

Lemma on_drag_orthographic_translation_witness :
  let s := Demo.pressed Demo.cubes_ortho_ctrl in
  let d := ((200 - 100) * SENSITIVITY)%float in
  let translation := MVector.mul (MVector.mul (view_direction s) d) 2%float in
  length (initial_positions s) = length (selection s)
  /\ run (on_drag [200; 50; 0]%float) s =
     (Ok tt, s,
      zip_with (fun item p => move_to (MVector.add p translation) item)
        (selection s) (initial_positions s)
      ++ [Refresh]).
Proof.
  apply (on_drag_orthographic_translation [Press Demo.cubes_ortho_ctrl] ""
           (Demo.pressed Demo.cubes_ortho_ctrl) [UndoOpenChunk]);
    vm_compute; reflexivity.
Defined.

(** C3: in an armed perspective session without scale compensation, a drag
    sets [depth_factor = 1 + delta] (whatever its sign: no clamping, no error)
    and [new_centroid = camera_pos + cam_to_avg_vec * depth_factor], and moves
    every target [i] to [new_centroid + initial_vectors[i]]: the offsets, taken
    from the centroid at press time, do not depend on the drag. *)
Theorem on_drag_perspective_rigid
    (es : list event) (ctx : string) (s : OkPushyTool) (t : list call)
    (drag_point : list float) (drag_x anchor_x : float) :
  dispatch es (idle ctx) = (s, t) ->
  is_ready s = true ->
  is_ortho s = false ->
  scale_compensate s = false ->
  drag_point !! 0 = Some drag_x ->
  anchor_point s !! 0 = Some anchor_x ->
  let depth_factor := (1 + (drag_x - anchor_x) * SENSITIVITY)%float in
  let new_centroid :=
    MVector.add (camera_pos s) (MVector.mul (cam_to_avg_vec s) depth_factor) in
  length (initial_vectors s) = length (selection s)
  /\ initial_vectors s =
     map (fun pos => MVector.sub pos (initial_avg_pos s)) (initial_positions s)
  /\ run (on_drag drag_point) s =
     (Ok tt, s,
      zip_with (fun item v => move_to (MVector.add new_centroid v) item)
        (selection s) (initial_vectors s)
      ++ [Refresh]).
Proof.
  intros Hd Hr Ho Hsc Hx Ha depth_factor new_centroid.
  destruct (session_well_armed es ctx s t Hd Hr) as ((_ & Hlen & _) & _ & _ & Hsn & Hvec).
  split; [by apply Hlen|]. split; [by apply Hvec|].
  rewrite (on_drag_perspective drag_point s drag_x anchor_x) by auto.
  rewrite perspective_calls_rigid; [done|done|].
  apply Hsn. by rewrite Hsc.
Qed.

Lemma on_drag_perspective_rigid_witness :
  let s := Demo.pressed Demo.two_vertices in
  let depth_factor := (1 + (-300 - 100) * SENSITIVITY)%float in
  let new_centroid :=
    MVector.add (camera_pos s) (MVector.mul (cam_to_avg_vec s) depth_factor) in
  length (initial_vectors s) = length (selection s)
  /\ initial_vectors s =
     map (fun pos => MVector.sub pos (initial_avg_pos s)) (initial_positions s)
  /\ run (on_drag [-300; 50; 0]%float) s =
     (Ok tt, s,
      zip_with (fun item v => move_to (MVector.add new_centroid v) item)
        (selection s) (initial_vectors s)
      ++ [Refresh]).
Proof.
  apply (on_drag_perspective_rigid [Press Demo.two_vertices] ""
           (Demo.pressed Demo.two_vertices) [UndoOpenChunk]);
    vm_compute; reflexivity.
Defined.

(** C4: in an armed perspective session with scale compensation, a drag moves
    every target [i] to [new_centroid + initial_vectors[i] * depth_factor] and
    scales every target that has an entry in [initial_scales] to
    [initial_scale * depth_factor]. *)
Theorem on_drag_perspective_scale_compensate
    (es : list event) (ctx : string) (s : OkPushyTool) (t : list call)
    (drag_point : list float) (drag_x anchor_x : float) :
  dispatch es (idle ctx) = (s, t) ->
  is_ready s = true ->
  is_ortho s = false ->
  scale_compensate s = true ->
  drag_point !! 0 = Some drag_x ->
  anchor_point s !! 0 = Some anchor_x ->
  let depth_factor := (1 + (drag_x - anchor_x) * SENSITIVITY)%float in
  let new_centroid :=
    MVector.add (camera_pos s) (MVector.mul (cam_to_avg_vec s) depth_factor) in
  length (initial_vectors s) = length (selection s)
  /\ run (on_drag drag_point) s =
     (Ok tt, s,
      concat
        (zip_with
           (fun item v =>
              move_to (MVector.add new_centroid (MVector.mul v depth_factor)) item
              :: match initial_scales s !! item with
                 | Some initial_scale =>
                     [scale_to (MVector.mul initial_scale depth_factor) item]
                 | None => []
                 end)
           (selection s) (initial_vectors s))
      ++ [Refresh]).
Proof.
  intros Hd Hr Ho Hsc Hx Ha depth_factor new_centroid.
  destruct (session_well_armed es ctx s t Hd Hr) as ((_ & Hlen & _) & _).
  split; [by apply Hlen|].
  rewrite (on_drag_perspective drag_point s drag_x anchor_x) by auto.
  unfold perspective_calls, delta. by rewrite Hsc.
Qed.

Lemma on_drag_perspective_scale_compensate_witness :
  let s := Demo.pressed Demo.cubes_persp_ctrl in
  let depth_factor := (1 + (200 - 100) * SENSITIVITY)%float in
  let new_centroid :=
    MVector.add (camera_pos s) (MVector.mul (cam_to_avg_vec s) depth_factor) in
  length (initial_vectors s) = length (selection s)
  /\ run (on_drag [200; 50; 0]%float) s =
     (Ok tt, s,
      concat
        (zip_with
           (fun item v =>
              move_to (MVector.add new_centroid (MVector.mul v depth_factor)) item
              :: match initial_scales s !! item with
                 | Some initial_scale =>
                     [scale_to (MVector.mul initial_scale depth_factor) item]
                 | None => []
                 end)
           (selection s) (initial_vectors s))
      ++ [Refresh]).
Proof.
  apply (on_drag_perspective_scale_compensate [Press Demo.cubes_persp_ctrl] ""
           (Demo.pressed Demo.cubes_persp_ctrl) [UndoOpenChunk]);
    vm_compute; reflexivity.
Defined.

Lemma press_armed_targets cmds s s' tr r :
  press_outcome cmds s r s' tr -> is_ready s' = true ->
  selection s' = resolved cmds
  /\ is_component_mode s' = existsb is_component (ls_selection cmds).
Proof.
  intros [? Hr|? ? Hr|? _ _ _ _ _ Hsel _ Hcomp _ _ _ _] Hready; [congruence..|done].
Qed.

(** C5: on a press that arms the session, when the raw selection holds a face
    or an edge identifier the session is in component mode and the targets
    are the host's conversion to vertices of the whole raw selection,
    flattened; on a host that converts as the specification's
    [convertToVertices] does, they are vertex identifiers only, without
    duplicates, as many as the distinct vertices the selection touches.  When
    the selection holds components but no face and no edge, the targets are
    the raw selection itself. *)
Theorem on_press_component_targets
    (cmds : Maya) (mesh : string -> list vertex)
    (s s' : OkPushyTool) (tr : list call) :
  run (on_press cmds) s = (Ok tt, s', tr) ->
  is_ready s' = true ->
  let selection_raw := ls_selection cmds in
  (existsb is_face_or_edge selection_raw = true ->
   is_component_mode s' = true
   /\ selection s' =
      ls_flatten cmds (polyListComponentConversion_toVertex cmds selection_raw)
   /\ (ls_flatten cmds (polyListComponentConversion_toVertex cmds selection_raw)
       = convertToVertices mesh selection_raw ->
       Forall (fun item => is_vertex item = true) (selection s')
       /\ NoDup (selection s')
       /\ length (selection s') = size (touched mesh selection_raw)))
  /\ (existsb is_component selection_raw = true ->
      existsb is_face_or_edge selection_raw = false ->
      is_component_mode s' = true /\ selection s' = selection_raw).
Proof.
  intros Hrun Hr selection_raw.
  pose proof (on_press_outcome cmds s) as Hout. rewrite Hrun in Hout.
  destruct (press_armed_targets _ _ _ _ _ Hout Hr) as [Hsel Hcomp]. clear Hout.
  unfold resolved in Hsel. fold selection_raw in Hsel, Hcomp.
  split.
  - intros Hfe.
    rewrite (existsb_face_or_edge_component _ Hfe) in Hsel, Hcomp.
    rewrite Hfe in Hsel.
    split; [done|]. split; [done|].
    intros Hhost. rewrite Hsel, Hhost. apply convertToVertices_vertices.
  - intros Hc Hfe. rewrite Hc in Hsel, Hcomp. rewrite Hfe in Hsel. done.
Qed.

Lemma on_press_component_targets_witness :
  (let s' := Demo.pressed Demo.vertex_and_face in
   selection s' = [Demo.vtx0; Demo.vtx1; Demo.vtx2; Demo.vtx3]
   /\ Forall (fun item => is_vertex item = true) (selection s')
   /\ NoDup (selection s')
   /\ length (selection s')
      = size (touched Demo.mesh (ls_selection Demo.vertex_and_face)))
  /\ selection (Demo.pressed Demo.two_vertices) = ls_selection Demo.two_vertices.
Proof.
  assert (Hrun1 : run (on_press Demo.vertex_and_face) __init__
                  = (Ok tt, Demo.pressed Demo.vertex_and_face, [UndoOpenChunk]))
    by (vm_compute; reflexivity).
  assert (Hrun2 : run (on_press Demo.two_vertices) __init__
                  = (Ok tt, Demo.pressed Demo.two_vertices, [UndoOpenChunk]))
    by (vm_compute; reflexivity).
  assert (Hready1 : is_ready (Demo.pressed Demo.vertex_and_face) = true)
    by (vm_compute; reflexivity).
  assert (Hready2 : is_ready (Demo.pressed Demo.two_vertices) = true)
    by (vm_compute; reflexivity).
  pose proof (on_press_component_targets Demo.vertex_and_face Demo.mesh __init__
                _ _ Hrun1 Hready1) as [Hface _].
  pose proof (on_press_component_targets Demo.two_vertices Demo.mesh __init__
                _ _ Hrun2 Hready2) as [_ Hvertices].
  assert (Hfe : existsb is_face_or_edge (ls_selection Demo.vertex_and_face) = true)
    by (vm_compute; reflexivity).
  assert (Hc : existsb is_component (ls_selection Demo.two_vertices) = true)
    by (vm_compute; reflexivity).
  assert (Hnfe : existsb is_face_or_edge (ls_selection Demo.two_vertices) = false)
    by (vm_compute; reflexivity).
  assert (Hhost : ls_flatten Demo.vertex_and_face
                    (polyListComponentConversion_toVertex Demo.vertex_and_face
                       (ls_selection Demo.vertex_and_face))
                  = convertToVertices Demo.mesh (ls_selection Demo.vertex_and_face))
    by (vm_compute; reflexivity).
  destruct (Hface Hfe) as (_ & Hsel & Hconv).
  split.
  - split; [|exact (Hconv Hhost)].
    rewrite Hsel. vm_compute. reflexivity.
  - exact (proj2 (Hvertices Hc Hnfe)).
Defined.

(** C6 fails on the code: a press that fails validation closes the chunk it
    opened, and the release that follows closes a chunk once more.  With
    nothing selected, one press-release session opens one chunk and closes
    two. *)
Theorem failed_press_then_release_closes_twice :
  let '(s, tr) := dispatch [Press Demo.nothing_selected; Release] __init__ in
  s = __init__
  /\ tr = [UndoOpenChunk; UndoCloseChunk; UndoCloseChunk]
  /\ opens tr = 1
  /\ closes tr = 2.
Proof. vm_compute. done. Qed.

(** What does hold of the chunks.  A loop sends what its body sends. *)
Lemma for_enumerate_sends {A} (P : call -> Prop) (body : nat -> A -> M unit) :
  (forall i a s t, exists t', (body i a s t).2 = t ++ t' /\ Forall P t') ->
  forall l i s t, exists t', (for_enumerate i l body s t).2 = t ++ t' /\ Forall P t'.
Proof.
  intros Hbody l. induction l as [|a l IH]; intros i s t.
  - exists []. cbn. by rewrite app_nil_r.
  - cbn [for_enumerate]. unfold bind.
    destruct (Hbody i a s t) as (t1' & Ht1 & HP1).
    destruct (body i a s t) as [[[[]|e] s1] t1]; cbn in Ht1; subst t1.
    + destruct (IH (S i) s1 (t ++ t1')) as (t2' & -> & HP2).
      exists (t1' ++ t2'). rewrite app_assoc. split; [done|]. by apply Forall_app.
    + by exists t1'.
Qed.

(** A drag sends moves, scales and a refresh only, whatever the instance and
    however it ends. *)
Lemma on_drag_sends (drag_point : list float) (s : OkPushyTool) :
  Forall (fun c => is_open c = false /\ is_close c = false) (run (on_drag drag_point) s).2.
Proof.
  unfold run, on_drag. autorewrite with py.
  destruct (is_ready s); cbn [negb]; [|by constructor].
  autorewrite with py.
  destruct (drag_point !! 0) as [d0|]; [|by constructor].
  autorewrite with py.
  destruct (anchor_point s !! 0) as [a0|]; [|by constructor].
  autorewrite with py.
  set (P := fun c => is_open c = false /\ is_close c = false).
  assert (Hfinish : forall (m : M unit) s1,
             (exists t', (m s1 []).2 = [] ++ t' /\ Forall P t') ->
             Forall P (bind m (fun _ => send Refresh) s1 []).2).
  { intros m s1 (t' & Ht & HP). unfold bind.
    destruct (m s1 []) as [[[[]|e] s2] t2]; cbn in Ht; subst t2; [|done].
    cbn. apply Forall_app. split; [done|]. by repeat constructor. }
  destruct (is_ortho s); autorewrite with py; apply Hfinish, for_enumerate_sends.
  - intros i item s1 t1. cbn beta. autorewrite with py.
    destruct (initial_positions s1 !! i) as [p|]; [|exists []; by rewrite app_nil_r].
    autorewrite with py. unfold send. cbn [snd].
    eexists [_]. split; [done|]. by repeat constructor.
  - intros i item s1 t1. cbn beta. autorewrite with py.
    destruct (initial_vectors s1 !! i) as [v|]; [|exists []; by rewrite app_nil_r].
    autorewrite with py.
    destruct (initial_scales s1 !! item) as [sc|].
    + unfold send. cbn [snd]. eexists [_; _]. rewrite <- app_assoc.
      split; [done|]. by repeat constructor.
    + unfold ret. cbn [snd]. eexists [_]. split; [done|]. by repeat constructor.
Qed.

Lemma opens_app (t1 t2 : list call) : opens (t1 ++ t2) = opens t1 + opens t2.
Proof. unfold opens. by rewrite filter_app, length_app. Qed.

Lemma closes_app (t1 t2 : list call) : closes (t1 ++ t2) = closes t1 + closes t2.
Proof. unfold closes. by rewrite filter_app, length_app. Qed.

Lemma no_chunks (t : list call) :
  Forall (fun c => is_open c = false /\ is_close c = false) t ->
  opens t = 0 /\ closes t = 0.
Proof.
  unfold opens, closes. induction 1 as [|c t [Ho Hc] _ [IHo IHc]]; [done|].
  rewrite !filter_cons. rewrite Ho, Hc. by repeat case_decide.
Qed.

(** Drags change no field and no chunk. *)
Lemma dispatch_drags (drag_points : list (list float)) (s : OkPushyTool) :
  let '(s', tr) := dispatch (map Drag drag_points) s in
  s' = s /\ opens tr = 0 /\ closes tr = 0.
Proof.
  induction drag_points as [|drag_point l IH]; [done|].
  cbn [map dispatch handle].
  pose proof (on_drag_state drag_point s []) as Hs.
  pose proof (on_drag_sends drag_point s) as Ht. apply no_chunks in Ht as [Ho Hc].
  unfold run in *. destruct (on_drag drag_point s []) as [[r s1] t1].
  cbn [fst snd] in Hs, Ho, Hc. subst s1.
  destruct (dispatch (map Drag l) s) as [s2 t2]. destruct IH as (-> & Ho2 & Hc2).
  rewrite opens_app, closes_app. split; [done|]. lia.
Qed.

Lemma dispatch_app (es1 es2 : list event) (s : OkPushyTool) :
  dispatch (es1 ++ es2) s =
  let '(s1, t1) := dispatch es1 s in
  let '(s2, t2) := dispatch es2 s1 in
  (s2, t1 ++ t2).
Proof.
  revert s. induction es1 as [|e es1 IH]; intros s.
  - cbn. by destruct (dispatch es2 s).
  - cbn [app dispatch]. destruct (run (handle e) s) as [[r s1] t1].
    rewrite IH. destruct (dispatch es1 s1) as [s2 t2].
    destruct (dispatch es2 s2) as [s3 t3]. by rewrite app_assoc.
Qed.

(** The chunks of a whole session, a press, drags and a release: one chunk is
    opened; it is closed once when the press armed the session or raised, and
    twice when the press returned without arming. *)
Lemma session_chunks (cmds : Maya) (drag_points : list (list float)) (s : OkPushyTool) :
  let '(r, armed, _) := run (on_press cmds) s in
  let '(s', tr) := dispatch (Press cmds :: map Drag drag_points ++ [Release]) s in
  s' = idle (former_context s)
  /\ opens tr = 1
  /\ closes tr = (if is_ready armed then 1 else match r with Ok _ => 2 | Raise _ => 1 end).
Proof.
  pose proof (on_press_chunks cmds s) as Hpress.
  pose proof (handle_former_context (Press cmds) s) as Hctx.
  cbn [dispatch handle] in *.
  destruct (run (on_press cmds) s) as [[r s1] t1]. cbn in Hctx.
  destruct (Hpress s1 r t1 eq_refl) as [Ho Hc].
  rewrite dispatch_app.
  pose proof (dispatch_drags drag_points s1) as Hdrags.
  destruct (dispatch (map Drag drag_points) s1) as [s2 t2].
  destruct Hdrags as (-> & Ho2 & Hc2).
  cbn [dispatch handle]. rewrite on_release_run, Hctx.
  rewrite !opens_app, !closes_app, Ho, Hc, Ho2, Hc2. cbn.
  split; [done|]. split; [done|]. destruct (is_ready s1); [done|]. by destruct r.
Qed.

(** C7: whatever the events so far, whenever the session is ready the
    per-target data agree with the targets: one initial position per target,
    in perspective one initial vector per target, and initial scales for
    targets only.  And a press on that session is the press on a fresh
    instance: nothing of the armed session survives into the next one. *)
Theorem ready_session_consistent
    (es : list event) (ctx : string) (s : OkPushyTool) (t : list call) :
  dispatch es (idle ctx) = (s, t) ->
  is_ready s = true ->
  (length (initial_positions s) = length (selection s)
   /\ (is_ortho s = false -> length (initial_vectors s) = length (selection s))
   /\ (forall item, is_Some (initial_scales s !! item) -> item ∈ selection s))
  /\ (forall cmds, run (on_press cmds) s = run (on_press cmds) (idle ctx)).
Proof.
  intros Hd Hr. split.
  - by destruct (session_well_armed es ctx s t Hd Hr) as (Hc & _).
  - intros cmds. rewrite on_press_from_idle.
    by rewrite (dispatch_former_context es (idle ctx) s t Hd).
Qed.

Lemma ready_session_consistent_witness :
  let s :=
    (dispatch [Press Demo.two_vertices; Drag [200; 50; 0]%float;
               Press Demo.cubes_persp_ctrl] __init__).1 in
  (length (initial_positions s) = length (selection s)
   /\ (is_ortho s = false -> length (initial_vectors s) = length (selection s))
   /\ (forall item, is_Some (initial_scales s !! item) -> item ∈ selection s))
  /\ (forall cmds, run (on_press cmds) s = run (on_press cmds) (idle "")).
Proof.
  apply (ready_session_consistent
           [Press Demo.two_vertices; Drag [200; 50; 0]%float; Press Demo.cubes_persp_ctrl]
           "" _
           (dispatch [Press Demo.two_vertices; Drag [200; 50; 0]%float;
                      Press Demo.cubes_persp_ctrl] __init__).2);
    vm_compute; reflexivity.
Defined.

(** C8: a drag on a session that is not ready returns at once: no command is
    sent (no move, no scale, no refresh) and no field changes.  This holds of
    any idle instance, so after any events that leave it idle, and before any
    press. *)
Theorem on_drag_idle_noop (drag_point : list float) (s : OkPushyTool) :
  is_ready s = false -> run (on_drag drag_point) s = (Ok tt, s, []).
Proof. apply on_drag_not_ready. Qed.

Lemma on_drag_idle_noop_witness :
  run (on_drag [10; 20; 0]%float) __init__ = (Ok tt, __init__, []).
Proof. apply (on_drag_idle_noop [10; 20; 0]%float __init__). reflexivity. Defined.

(** C9: a release returns, sends one [closeChunk] and leaves the idle
    instance (every per-drag field at its initial value, [is_ready] false);
    a second release does the same and leaves the same instance. *)
Theorem on_release_idempotent (s : OkPushyTool) :
  let '(r1, s1, _) := run on_release s in
  let '(r2, s2, _) := run on_release s1 in
  r1 = Ok tt /\ r2 = Ok tt
  /\ s1 = idle (former_context s) /\ s2 = s1
  /\ is_ready s1 = false.
Proof. rewrite !on_release_run. done. Qed.

(** C10: in an armed orthographic session no scale was recorded at press
    time, and a drag sends no scale command and changes no field, also when
    scale compensation is on in object mode. *)
Theorem ortho_session_never_scales
    (es : list event) (ctx : string) (s : OkPushyTool) (t : list call)
    (drag_point : list float) :
  dispatch es (idle ctx) = (s, t) ->
  is_ready s = true ->
  is_ortho s = true ->
  initial_scales s = ∅
  /\ (let '(_, s', tr) := run (on_drag drag_point) s in
      s' = s /\ Forall (fun c => is_move c = true \/ c = Refresh) tr
      /\ Forall (fun c => is_scale c = false) tr).
Proof.
  intros Hd Hr Ho.
  destruct (session_well_armed es ctx s t Hd Hr) as ((Hlen & _) & _ & Hsn & _).
  split; [by apply Hsn|].
  destruct (drag_point !! 0) as [drag_x|] eqn:Hx.
  2:{ unfold run, on_drag. autorewrite with py. rewrite Hr. cbn [negb].
      autorewrite with py. rewrite Hx. done. }
  destruct (anchor_point s !! 0) as [anchor_x|] eqn:Ha.
  2:{ unfold run, on_drag. autorewrite with py. rewrite Hr. cbn [negb].
      autorewrite with py. rewrite Hx. autorewrite with py. rewrite Ha. done. }
  rewrite (on_drag_ortho drag_point s drag_x anchor_x) by done.
  split; [done|].
  pose proof (ortho_calls_moves s (delta drag_x anchor_x)) as Hm.
  split; apply Forall_app; split.
  - eapply Forall_impl; [exact Hm|]. by left.
  - constructor; [by right|constructor].
  - eapply Forall_impl; [exact Hm|]. by intros [].
  - by repeat constructor.
Qed.

Lemma ortho_session_never_scales_witness :
  let s := Demo.pressed Demo.cubes_ortho_ctrl in
  (scale_compensate s = true /\ is_component_mode s = false)
  /\ initial_scales s = ∅
  /\ (let '(_, s', tr) := run (on_drag [200; 50; 0]%float) s in
      s' = s /\ Forall (fun c => is_move c = true \/ c = Refresh) tr
      /\ Forall (fun c => is_scale c = false) tr).
Proof.
  split; [done|].
  apply (ortho_session_never_scales [Press Demo.cubes_ortho_ctrl] ""
           (Demo.pressed Demo.cubes_ortho_ctrl) [UndoOpenChunk]);
    vm_compute; reflexivity.
Defined.

(** * More of the code *)

(** ** What a press records *)

(** The loop of lines 139-141, when it ends, has appended the position the
    host answers for each target, in order. *)
Lemma record_initial_positions_content (cmds : Maya) (s : OkPushyTool) (t : list call) :
  exists r ps,
    record_initial_positions cmds s t = (r, set_initial_positions ps s, t)
    /\ (r = Ok tt ->
        exists new,
          ps = initial_positions s ++ new
          /\ Forall2 (fun item p => position_of cmds item = Some p) (selection s) new).
Proof.
  unfold record_initial_positions. rewrite bind_get.
  generalize (selection s) as l. intros l. revert s.
  induction l as [|item l IH]; intros s.
  - exists (Ok tt), (initial_positions s). rewrite set_initial_positions_same.
    cbn. split; [done|]. intros _. exists []. by rewrite app_nil_r.
  - cbn [for_]. rewrite !bind_bind, bind_getitem.
    destruct (xform_translation cmds item) as [|x [|y [|z pos]]] eqn:Hpos;
      cbn [lookup list_lookup];
      try (exists (Raise IndexError), (initial_positions s);
           by rewrite set_initial_positions_same).
    repeat (autorewrite with py; cbn [lookup list_lookup]).
    destruct (IH (set_initial_positions (initial_positions s ++ [MVector.mk x y z]) s))
      as (r & ps & Heq & Hnew).
    exists r, ps. rewrite Heq. split; [done|].
    intros Hr. destruct (Hnew Hr) as (new & -> & Hall). fields.
    exists (MVector.mk x y z :: new). rewrite <- app_assoc. split; [done|].
    constructor; [|done]. unfold position_of. by rewrite Hpos.
Qed.

(** The loop of lines 163-165, when it ends, holds the scale the host answers
    for every item it ran over, and what it held before for the others. *)
Lemma for_scales_content (cmds : Maya) (l : list string) (s : OkPushyTool) (t : list call) :
  exists r m,
    for_ l (fun item =>
      scale_val ← getitem (getAttr_double3 cmds (item +:+ ".scale")) 0 ;
      x ← getitem scale_val 0 ;
      y ← getitem scale_val 1 ;
      z ← getitem scale_val 2 ;
      self_initial_scales ← get initial_scales ;
      assign (set_initial_scales (<[item := MVector.mk x y z]> self_initial_scales))) s t
    = (r, set_initial_scales m s, t)
    /\ (r = Ok tt ->
        (forall item, item ∈ l ->
           is_Some (scale_of cmds item) /\ m !! item = scale_of cmds item)
        /\ (forall item, item ∉ l -> m !! item = initial_scales s !! item)).
Proof.
  revert s. induction l as [|item l IH]; intros s.
  - exists (Ok tt), (initial_scales s). rewrite set_initial_scales_same.
    cbn. split; [done|]. intros _. split; [|done]. intros item Hin. by apply elem_of_nil in Hin.
  - cbn [for_]. rewrite !bind_bind, bind_getitem.
    destruct (getAttr_double3 cmds (item +:+ ".scale")) as [|scale_val vals] eqn:Hattr;
      cbn [lookup list_lookup].
    { exists (Raise IndexError), (initial_scales s).
      by rewrite set_initial_scales_same. }
    autorewrite with py.
    destruct scale_val as [|x [|y [|z rest]]]; cbn [lookup list_lookup];
      try (exists (Raise IndexError), (initial_scales s);
           by rewrite set_initial_scales_same).
    repeat (autorewrite with py; cbn [lookup list_lookup]).
    destruct (IH (set_initial_scales (<[item := MVector.mk x y z]> (initial_scales s)) s))
      as (r & m & Heq & Hm).
    exists r, m. rewrite Heq. split; [done|].
    intros Hr. destruct (Hm Hr) as [Hin Hout]. fields.
    assert (Hitem : scale_of cmds item = Some (MVector.mk x y z))
      by (unfold scale_of; by rewrite Hattr).
    split.
    + intros k [->|Hk]%elem_of_cons; [|by apply Hin].
      destruct (decide (item ∈ l)) as [Hk|Hk]; [by apply Hin|].
      rewrite (Hout item Hk), lookup_insert_eq, Hitem. by split; [eexists|].
    + intros k Hk. apply not_elem_of_cons in Hk as [Hne Hk].
      rewrite (Hout k Hk). by rewrite lookup_insert_ne.
Qed.

Lemma record_initial_scales_content (cmds : Maya) (s : OkPushyTool) (t : list call) :
  exists r m,
    record_initial_scales cmds s t = (r, set_initial_scales m s, t)
    /\ (r = Ok tt ->
        scale_compensate s && negb (is_component_mode s) = true ->
        forall item, item ∈ selection s ->
          is_Some (scale_of cmds item) /\ m !! item = scale_of cmds item).
Proof.
  unfold record_initial_scales. rewrite !bind_get.
  destruct (scale_compensate s && negb (is_component_mode s)).
  - rewrite bind_get.
    destruct (for_scales_content cmds (selection s) s t) as (r & m & Heq & Hm).
    exists r, m. split; [done|]. intros Hr _. by apply Hm.
  - exists (Ok tt), (initial_scales s). rewrite set_initial_scales_same.
    cbn. split; [done|]. done.
Qed.

Ltac not_armed := by (unfold send; fields; intros).

(** A press that arms the session has read all of this from the scene. *)
Lemma on_press_armed (cmds : Maya) (s : OkPushyTool) :
  let '(_, s', _) := run (on_press cmds) s in
  is_ready s' = true -> armed_by cmds s s'.
Proof.
  unfold run, on_press, _reset_state, arm.
  autorewrite with py.
  destruct (_ || _); [not_armed|].
  autorewrite with py. fold (camera_transform cmds).
  destruct (listRelatives_shapes cmds _) as [shapes|] eqn:Hshapes; [|not_armed].
  destruct (shapes !! 0) as [cam_shape|] eqn:Hshape; [|not_armed].
  assert (Hcam : camera_shape cmds = Some cam_shape)
    by (unfold camera_shape; by rewrite Hshapes).
  autorewrite with py.
  destruct (ls_selection cmds) as [|item0 raw] eqn:Hraw; cbn [truthy_list negb];
    [not_armed|].
  rewrite <- Hraw.
  erewrite bind_run by apply resolve_selection_spec.
  autorewrite with py.
  change (selection (set_selection ?x _)) with x.
  destruct (resolved cmds) as [|item sel] eqn:Hsel; cbn [negb]; [not_armed|].
  rewrite <- Hsel. autorewrite with py.
  match goal with
  | |- context [bind (record_initial_positions cmds) _ ?s1 ?t1] =>
      destruct (record_initial_positions_content cmds s1 t1) as (r & ps & Heq & Hnew)
  end.
  erewrite bind_run by exact Heq. clear Heq.
  destruct r as [[]|e]; [|not_armed].
  destruct (Hnew eq_refl) as (new & -> & Hpos). clear Hnew. fields.
  cbn [app] in *. autorewrite with py.
  change (initial_positions (set_initial_positions ?x _)) with x.
  destruct new as [|p new]; cbn [negb]; [not_armed|].
  autorewrite with py. fields.
  destruct (getAttr_bool cmds (cam_shape +:+ ".orthographic")) eqn:Hortho.
  - (* orthographic camera *)
    autorewrite with py.
    destruct (_ !! 8) as [m8|] eqn:H8; [|not_armed]. autorewrite with py.
    destruct (_ !! 9) as [m9|] eqn:H9; [|not_armed]. autorewrite with py.
    destruct (_ !! 10) as [m10|] eqn:H10; [|not_armed]. autorewrite with py.
    intros _. unfold armed_by. fields.
    split; [by exists cam_shape|]. split; [done|]. split; [done|].
    split; [|done].
    intros _. exists (MVector.mk m8 m9 m10). split; [|done].
    unfold z_axis_of. by rewrite H8, H9, H10.
  - (* perspective camera *)
    autorewrite with py. fields.
    destruct (truthy_list (exactWorldBoundingBox cmds _)) eqn:Hbbox; cbn [negb];
      [|not_armed].
    destruct (exactWorldBoundingBox cmds _) as [bbox|] eqn:Hbox; [|done].
    autorewrite with py.
    destruct bbox as [|b0 [|b1 [|b2 [|b3 [|b4 [|b5 bbox]]]]]];
      repeat (autorewrite with py; cbn [lookup list_lookup]);
      try not_armed.
    destruct (MVector_of_seq cmds _) as [cam_pos|e] eqn:Hcampos; [|not_armed].
    autorewrite with py.
    match goal with
    | |- context [bind (record_initial_scales cmds) _ ?s1 ?t1] =>
        destruct (record_initial_scales_content cmds s1 t1) as (r & m & Heq & Hm)
    end.
    erewrite bind_run by exact Heq. clear Heq.
    destruct r as [[]|e]; [|not_armed].
    specialize (Hm eq_refl). fields.
    autorewrite with py.
    intros _. unfold armed_by, bbox_nodes. fields.
    split; [by exists cam_shape|]. split; [done|]. split; [done|].
    split; [done|]. split; [|done].
    intros _. split; [|done]. exists (b0 :: b1 :: b2 :: b3 :: b4 :: b5 :: bbox).
    by rewrite Hbox.
Qed.


(** X1: in a session armed by a press, scale compensation is on exactly when
    ctrl was held at the press or the tool was entered from the scale tool. *)
Theorem press_scale_compensate_rule
    (cmds : Maya) (s s' : OkPushyTool) (r : result unit) (tr : list call) :
  run (on_press cmds) s = (r, s', tr) ->
  is_ready s' = true ->
  (scale_compensate s' = true <->
   draggerContext_modifier cmds = "ctrl" \/ former_context s = "scaleSuperContext").
Proof.
  intros Hrun Hr. pose proof (on_press_armed cmds s) as Ha. rewrite Hrun in Ha.
  destruct (Ha Hr) as (_ & -> & _).
  rewrite orb_true_iff, !String.eqb_eq. done.
Qed.

Lemma press_scale_compensate_rule_witness :
  scale_compensate (Demo.pressed Demo.cubes_persp_ctrl) = true <->
  draggerContext_modifier Demo.cubes_persp_ctrl = "ctrl" \/ former_context __init__ = "scaleSuperContext".
Proof.
  apply (press_scale_compensate_rule Demo.cubes_persp_ctrl __init__ _ (Ok tt) [UndoOpenChunk]);
    vm_compute; reflexivity.
Defined.

(** X2: a press that arms has recorded, for every target in order, the world
    position the host answers for it. *)
Theorem press_records_positions
    (cmds : Maya) (s s' : OkPushyTool) (r : result unit) (tr : list call) :
  run (on_press cmds) s = (r, s', tr) ->
  is_ready s' = true ->
  Forall2 (fun item p => position_of cmds item = Some p)
    (selection s') (initial_positions s').
Proof.
  intros Hrun Hr. pose proof (on_press_armed cmds s) as Ha. rewrite Hrun in Ha.
  by destruct (Ha Hr) as (_ & _ & H & _).
Qed.

Lemma press_records_positions_witness :
  Forall2 (fun item p => position_of Demo.two_vertices item = Some p)
    (selection (Demo.pressed Demo.two_vertices))
    (initial_positions (Demo.pressed Demo.two_vertices)).
Proof.
  apply (press_records_positions Demo.two_vertices __init__ _ (Ok tt) [UndoOpenChunk]);
    vm_compute; reflexivity.
Defined.

(** X3: a press that arms through an orthographic camera has set the view
    direction to the normalised opposite of the third row of the camera's
    world matrix. *)
Theorem press_orthographic_setup
    (cmds : Maya) (s s' : OkPushyTool) (r : result unit) (tr : list call) :
  run (on_press cmds) s = (r, s', tr) ->
  is_ready s' = true ->
  is_ortho s' = true ->
  exists z_axis,
    z_axis_of cmds = Some z_axis
    /\ view_direction s' = MVector_normal cmds (MVector.mul z_axis (-1)%float).
Proof.
  intros Hrun Hr Ho. pose proof (on_press_armed cmds s) as Ha. rewrite Hrun in Ha.
  destruct (Ha Hr) as (_ & _ & _ & H & _). by apply H.
Qed.

Lemma press_orthographic_setup_witness :
  exists z_axis,
    z_axis_of Demo.cubes_ortho_ctrl = Some z_axis
    /\ view_direction (Demo.pressed Demo.cubes_ortho_ctrl)
       = MVector_normal Demo.cubes_ortho_ctrl (MVector.mul z_axis (-1)%float).
Proof.
  apply (press_orthographic_setup Demo.cubes_ortho_ctrl __init__ _ (Ok tt) [UndoOpenChunk]);
    vm_compute; reflexivity.
Defined.

(** X4: a press that arms through a perspective camera has set
    [initial_avg_pos] to the centre of the bounding box the host answers,
    [camera_pos] to the camera's world translation, [cam_to_avg_vec] to their
    difference and [initial_vectors] to the offsets of the recorded positions
    from that centre. *)
Theorem press_perspective_setup
    (cmds : Maya) (s s' : OkPushyTool) (r : result unit) (tr : list call) :
  run (on_press cmds) s = (r, s', tr) ->
  is_ready s' = true ->
  is_ortho s' = false ->
  (exists bbox,
      exactWorldBoundingBox cmds (bbox_nodes cmds s') = Some bbox
      /\ bbox_center bbox = Some (initial_avg_pos s'))
  /\ MVector_of_seq cmds (xform_translation cmds (camera_transform cmds)) = Ok (camera_pos s')
  /\ cam_to_avg_vec s' = MVector.sub (initial_avg_pos s') (camera_pos s')
  /\ initial_vectors s' =
     map (fun pos => MVector.sub pos (initial_avg_pos s')) (initial_positions s').
Proof.
  intros Hrun Hr Ho. pose proof (on_press_armed cmds s) as Ha. rewrite Hrun in Ha.
  destruct (Ha Hr) as (_ & _ & _ & _ & H & _). destruct (H Ho) as [Hb Hc].
  pose proof (on_press_outcome cmds s) as Hout. rewrite Hrun in Hout.
  destruct (press_armed_well_armed _ _ _ _ _ Hout Hr) as (_ & _ & _ & _ & Hv).
  destruct (Hv Ho) as [Hvec Hcam]. done.
Qed.

Lemma press_perspective_setup_witness :
  let cmds := Demo.two_vertices in
  let s' := Demo.pressed Demo.two_vertices in
  (exists bbox,
      exactWorldBoundingBox cmds (bbox_nodes cmds s') = Some bbox
      /\ bbox_center bbox = Some (initial_avg_pos s'))
  /\ MVector_of_seq cmds (xform_translation cmds (camera_transform cmds)) = Ok (camera_pos s')
  /\ cam_to_avg_vec s' = MVector.sub (initial_avg_pos s') (camera_pos s')
  /\ initial_vectors s' =
     map (fun pos => MVector.sub pos (initial_avg_pos s')) (initial_positions s').
Proof.
  apply (press_perspective_setup Demo.two_vertices __init__ _ (Ok tt) [UndoOpenChunk]);
    vm_compute; reflexivity.
Defined.


(** ** Sessions *)

(** What every arming press establishes holds of every ready session. *)
Lemma dispatch_armed_invariant (P : OkPushyTool -> Prop) :
  (forall cmds s r s' tr,
      run (on_press cmds) s = (r, s', tr) -> is_ready s' = true -> P s') ->
  forall es s0 s t,
    (is_ready s0 = true -> P s0) ->
    dispatch es s0 = (s, t) -> is_ready s = true -> P s.
Proof.
  intros Hpress es. induction es as [|e es IH]; intros s0 s t Hs0; cbn [dispatch].
  - by intros [= <- <-].
  - destruct (run (handle e) s0) as [[r s1] t1] eqn:He.
    destruct (dispatch es s1) as [s2 t2] eqn:Hd.
    intros [= <- <-]. apply (IH s1 s2 t2); [|done].
    destruct e as [cmds|drag_point|]; cbn [handle] in He.
    + by apply (Hpress cmds s0 r s1 t1).
    + pose proof (on_drag_state drag_point s0 []) as Hs. unfold run in He.
      rewrite He in Hs. cbn in Hs. by subst.
    + rewrite on_release_run in He. injection He as <- <- <-. done.
Qed.

(** The keys of [initial_scales] after an arming press. *)
Lemma press_scales_dom
    (cmds : Maya) (s s' : OkPushyTool) (r : result unit) (tr : list call) :
  run (on_press cmds) s = (r, s', tr) ->
  is_ready s' = true ->
  dom (initial_scales s') =
  if negb (is_ortho s') && scale_compensate s' && negb (is_component_mode s')
  then list_to_set (selection s') else ∅.
Proof.
  intros Hrun Hr.
  pose proof (on_press_armed cmds s) as Ha. rewrite Hrun in Ha.
  destruct (Ha Hr) as (_ & _ & _ & _ & _ & Hall).
  pose proof (on_press_outcome cmds s) as Hout. rewrite Hrun in Hout.
  destruct (press_armed_well_armed _ _ _ _ _ Hout Hr)
    as ((_ & _ & Hsub) & _ & Hortho & Hoff & _).
  destruct (is_ortho s') eqn:Ho; cbn [negb andb].
  { rewrite Hortho by done. apply dom_empty_L. }
  destruct (scale_compensate s' && negb (is_component_mode s')) eqn:Hsc.
  - apply set_eq. intros item. rewrite elem_of_dom, elem_of_list_to_set. split.
    + apply Hsub.
    + intros Hin. destruct (Hall eq_refl eq_refl item Hin) as [Hs ->]. done.
  - rewrite Hoff by done. apply dom_empty_L.
Qed.

(** X5: whatever the events so far, in a ready session the targets that have a
    recorded scale are all the targets when the session compensates scale in
    object mode through a perspective camera, and none otherwise. *)
Theorem session_scales_dom
    (es : list event) (ctx : string) (s : OkPushyTool) (t : list call) :
  dispatch es (idle ctx) = (s, t) ->
  is_ready s = true ->
  dom (initial_scales s) =
  if negb (is_ortho s) && scale_compensate s && negb (is_component_mode s)
  then list_to_set (selection s) else ∅.
Proof.
  intros Hd Hr.
  refine (dispatch_armed_invariant
            (fun s => dom (initial_scales s) =
                      if negb (is_ortho s) && scale_compensate s
                         && negb (is_component_mode s)
                      then list_to_set (selection s) else ∅)
            _ es (idle ctx) s t _ Hd Hr).
  - intros cmds s0 r s' tr. apply press_scales_dom.
  - done.
Qed.

Lemma session_scales_dom_witness :
  let s := Demo.pressed Demo.cubes_persp_ctrl in
  dom (initial_scales s) =
  if negb (is_ortho s) && scale_compensate s && negb (is_component_mode s)
  then list_to_set (selection s) else ∅.
Proof.
  apply (session_scales_dom [Press Demo.cubes_persp_ctrl] "" _ [UndoOpenChunk]);
    vm_compute; reflexivity.
Defined.

(** X6: a press that arms while compensating scale in object mode through a
    perspective camera has recorded, for every target, the scale the host
    answers for it. *)
Theorem press_records_scales
    (cmds : Maya) (s s' : OkPushyTool) (r : result unit) (tr : list call) (item : string) :
  run (on_press cmds) s = (r, s', tr) ->
  is_ready s' = true ->
  is_ortho s' = false ->
  scale_compensate s' = true ->
  is_component_mode s' = false ->
  item ∈ selection s' ->
  is_Some (scale_of cmds item) /\ initial_scales s' !! item = scale_of cmds item.
Proof.
  intros Hrun Hr Ho Hsc Hc Hin.
  pose proof (on_press_armed cmds s) as Ha. rewrite Hrun in Ha.
  destruct (Ha Hr) as (_ & _ & _ & _ & _ & Hall).
  apply Hall; [done| |done]. by rewrite Hsc, Hc.
Qed.

Lemma press_records_scales_witness :
  is_Some (scale_of Demo.cubes_persp_ctrl Demo.cube2)
  /\ initial_scales (Demo.pressed Demo.cubes_persp_ctrl) !! Demo.cube2
     = scale_of Demo.cubes_persp_ctrl Demo.cube2.
Proof.
  apply (press_records_scales Demo.cubes_persp_ctrl __init__ _ (Ok tt) [UndoOpenChunk]);
    try (vm_compute; reflexivity).
  apply list_elem_of_In. vm_compute. auto.
Defined.

Lemma perspective_calls_moves (s : OkPushyTool) (d : float) :
  initial_scales s = ∅ -> Forall (fun c => is_move c = true) (perspective_calls s d).
Proof.
  intros Hsn. unfold perspective_calls. rewrite Hsn.
  generalize (initial_vectors s).
  induction (selection s) as [|item l IH]; intros [|v vs]; cbn [zip_with concat];
    try by constructor.
  rewrite lookup_empty. constructor; [done|]. apply IH.
Qed.

(** A drag on a well armed instance. *)
Lemma on_drag_well_armed (s : OkPushyTool) (drag_point : list float) :
  is_ready s = true ->
  well_armed s ->
  run (on_drag drag_point) s =
  match drag_point !! 0, anchor_point s !! 0 with
  | Some drag_x, Some anchor_x =>
      (Ok tt, s,
       (if is_ortho s then ortho_calls s (delta drag_x anchor_x)
        else perspective_calls s (delta drag_x anchor_x)) ++ [Refresh])
  | _, _ => (Raise IndexError, s, [])
  end.
Proof.
  intros Hr ((Hlen & Hvec & _) & _).
  destruct (drag_point !! 0) as [drag_x|] eqn:Hx.
  2:{ unfold run, on_drag. autorewrite with py. rewrite Hr. cbn [negb].
      autorewrite with py. by rewrite Hx. }
  destruct (anchor_point s !! 0) as [anchor_x|] eqn:Hanchor.
  2:{ unfold run, on_drag. autorewrite with py. rewrite Hr. cbn [negb].
      autorewrite with py. rewrite Hx. autorewrite with py. by rewrite Hanchor. }
  destruct (is_ortho s) eqn:Ho.
  - by apply on_drag_ortho.
  - apply on_drag_perspective; auto.
Qed.

(** X7: whatever the events so far, in a ready session a drag returns exactly
    when the drag point and the anchor point have an x coordinate; otherwise
    it raises [IndexError] before any command is sent.  The per-target data
    never make it raise. *)
Theorem session_drag_outcome
    (es : list event) (ctx : string) (s : OkPushyTool) (t : list call)
    (drag_point : list float) :
  dispatch es (idle ctx) = (s, t) ->
  is_ready s = true ->
  run (on_drag drag_point) s =
  match drag_point !! 0, anchor_point s !! 0 with
  | Some drag_x, Some anchor_x =>
      (Ok tt, s,
       (if is_ortho s then ortho_calls s (delta drag_x anchor_x)
        else perspective_calls s (delta drag_x anchor_x)) ++ [Refresh])
  | _, _ => (Raise IndexError, s, [])
  end.
Proof.
  intros Hd Hr. apply on_drag_well_armed; [done|].
  by apply (session_well_armed es ctx s t).
Qed.

Lemma session_drag_outcome_witness :
  let s := Demo.pressed Demo.two_vertices in
  run (on_drag []) s =
  match @nil float !! 0, anchor_point s !! 0 with
  | Some drag_x, Some anchor_x =>
      (Ok tt, s,
       (if is_ortho s then ortho_calls s (delta drag_x anchor_x)
        else perspective_calls s (delta drag_x anchor_x)) ++ [Refresh])
  | _, _ => (Raise IndexError, s, [])
  end.
Proof.
  apply (session_drag_outcome [Press Demo.two_vertices] "" _ [UndoOpenChunk]);
    vm_compute; reflexivity.
Defined.

(** X8: whatever the events so far, a drag in a ready session that does not
    compensate scale in object mode (no ctrl and not entered from the scale
    tool, or component mode) sends no scale command. *)
Theorem session_drag_never_scales
    (es : list event) (ctx : string) (s : OkPushyTool) (t : list call)
    (drag_point : list float) :
  dispatch es (idle ctx) = (s, t) ->
  is_ready s = true ->
  scale_compensate s && negb (is_component_mode s) = false ->
  Forall (fun c => is_scale c = false) (run (on_drag drag_point) s).2.
Proof.
  intros Hd Hr Hsc.
  pose proof (session_well_armed es ctx s t Hd Hr) as Hwell.
  rewrite (on_drag_well_armed s drag_point Hr Hwell).
  destruct Hwell as (_ & _ & _ & Hoff & _).
  destruct (drag_point !! 0) as [drag_x|]; [|by constructor].
  destruct (anchor_point s !! 0) as [anchor_x|]; [|by constructor].
  cbn [snd]. apply Forall_app. split; [|by repeat constructor].
  assert (Hm : Forall (fun c => is_move c = true)
                 (if is_ortho s then ortho_calls s (delta drag_x anchor_x)
                  else perspective_calls s (delta drag_x anchor_x))).
  { destruct (is_ortho s); [apply ortho_calls_moves|].
    apply perspective_calls_moves. by apply Hoff. }
  eapply Forall_impl; [exact Hm|]. by intros [].
Qed.

Lemma session_drag_never_scales_witness :
  Forall (fun c => is_scale c = false)
    (run (on_drag [200; 50; 0]%float)
       (dispatch [Press (Demo.scene false "ctrl" [Demo.vtx0; Demo.vtx1]
                           (Some [0; 0; 0; 2; 0; 0]%float))] __init__).1).2.
Proof.
  apply (session_drag_never_scales
           [Press (Demo.scene false "ctrl" [Demo.vtx0; Demo.vtx1]
                     (Some [0; 0; 0; 2; 0; 0]%float))] "" _ [UndoOpenChunk]);
    vm_compute; reflexivity.
Defined.

(** X9: a drag writes no field, on any instance and however it ends; so the
    commands of a drag do not depend on the drags before it. *)
Theorem drags_do_not_accumulate (drag_point1 drag_point2 : list float) (s : OkPushyTool) :
  (run (on_drag drag_point1) s).1.2 = s
  /\ run (on_drag drag_point2) (run (on_drag drag_point1) s).1.2
     = run (on_drag drag_point2) s.
Proof.
  pose proof (on_drag_state drag_point1 s []) as Hs. unfold run in *.
  by rewrite Hs.
Qed.

(** ** Targets in object mode, and presses that raise *)

(** X10: when no selected identifier holds a component marker, a press that
    arms is in object mode and its targets are the transforms the host
    filters from the raw selection. *)
Theorem on_press_object_targets
    (cmds : Maya) (s s' : OkPushyTool) (r : result unit) (tr : list call) :
  run (on_press cmds) s = (r, s', tr) ->
  is_ready s' = true ->
  existsb is_component (ls_selection cmds) = false ->
  is_component_mode s' = false
  /\ selection s' = ls_transform cmds (ls_selection cmds)
  /\ ls_transform cmds (ls_selection cmds) <> [].
Proof.
  intros Hrun Hr Hc.
  pose proof (on_press_outcome cmds s) as Hout. rewrite Hrun in Hout.
  destruct (press_armed_targets _ _ _ _ _ Hout Hr) as [Hsel Hcomp].
  destruct (press_armed_well_armed _ _ _ _ _ Hout Hr) as (_ & Hne & _).
  unfold resolved in Hsel. rewrite Hc in Hsel, Hcomp.
  split; [done|]. split; [done|]. by rewrite <- Hsel.
Qed.

Lemma on_press_object_targets_witness :
  let cmds := Demo.scene false "none" [Demo.cube1_shape; Demo.cube2]
                (Some [0; 0; 0; 2; 0; 0]%float) in
  let s' := (dispatch [Press cmds] __init__).1 in
  is_component_mode s' = false
  /\ selection s' = ls_transform cmds (ls_selection cmds)
  /\ ls_transform cmds (ls_selection cmds) <> [].
Proof.
  apply (on_press_object_targets
           (Demo.scene false "none" [Demo.cube1_shape; Demo.cube2]
              (Some [0; 0; 0; 2; 0; 0]%float))
           __init__ _ (Ok tt) [UndoOpenChunk]);
    vm_compute; reflexivity.
Defined.

(** X11: when a model panel has the focus and its camera has no shape, a press
    raises, [TypeError] when the host answers [None] and [IndexError] when it
    answers an empty list, with the undo chunk opened and not closed, every
    per-drag field reset and the selection not read. *)
Theorem on_press_camera_without_shape (cmds : Maya) (s : OkPushyTool) :
  no_viewport cmds = false ->
  camera_shape cmds = None ->
  run (on_press cmds) s =
  (Raise (match listRelatives_shapes cmds (camera_transform cmds) with
          | None => TypeError
          | Some _ => IndexError
          end),
   idle (former_context s), [UndoOpenChunk]).
Proof.
  intros Hvp Hshape. unfold run, on_press, _reset_state.
  autorewrite with py. fold (no_viewport cmds). rewrite Hvp.
  autorewrite with py. fold (camera_transform cmds).
  unfold camera_shape in Hshape.
  destruct (listRelatives_shapes cmds (camera_transform cmds)) as [shapes|]; [|done].
  by rewrite Hshape.
Qed.

Lemma on_press_camera_without_shape_witness :
  run (on_press DemoTools.camera_without_shape) __init__ =
  (Raise TypeError, idle "", [UndoOpenChunk]).
Proof.
  apply (on_press_camera_without_shape DemoTools.camera_without_shape __init__);
    reflexivity.
Defined.

(** ** Activation *)

Lemma deactivate_spec (tools : Tools) (s : OkPushyTool) :
  deactivate tools s =
  (s, if decide (currentCtx tools = CONTEXT_NAME /\ former_context s <> "")
      then [SetToolTo (former_context s)] else []).
Proof.
  unfold deactivate.
  destruct (String.eqb_spec (currentCtx tools) CONTEXT_NAME) as [Hc|Hc];
    destruct (former_context s) as [|c fc] eqn:Hf; cbn [andb truthy_string];
    case_decide as H; first [done | by destruct H | by exfalso; apply H].
Qed.



(** X13: the release function sends nothing and changes nothing when the tool
    was never activated, when another context is current, or when the
    context recorded at activation has no name. *)
Theorem okPushyDeactivate_noop (tools : Tools) (instance : option OkPushyTool) :
  instance = None
  \/ currentCtx tools <> CONTEXT_NAME
  \/ (exists s, instance = Some s /\ former_context s = "") ->
  okPushyDeactivate tools instance = (instance, []).
Proof.
  unfold okPushyDeactivate.
  intros [->|H]; [done|]. destruct instance as [s|]; [|done].
  rewrite deactivate_spec. rewrite decide_False; [done|].
  intros [Hc Hf]. destruct H as [H|(s0 & [= <-] & H)]; done.
Qed.

Lemma okPushyDeactivate_noop_witness :
  okPushyDeactivate DemoTools.tool_active (Some __init__) = (Some __init__, []).
Proof.
  apply (okPushyDeactivate_noop DemoTools.tool_active (Some __init__)).
  right. right. by exists __init__.
Defined.

(** X14: when the tool is activated while the scale tool is current, every
    session armed afterwards compensates scale, whatever modifier is held,
    for as long as the tool is not activated again. *)
Theorem scale_tool_activation_compensates
    (tools : Tools) (instance : OkPushyTool) (es : list event)
    (s : OkPushyTool) (t : list call) :
  currentCtx tools = "scaleSuperContext" ->
  is_ready instance = false ->
  dispatch es (activate tools instance).1 = (s, t) ->
  is_ready s = true ->
  scale_compensate s = true.
Proof.
  intros Hctx Hidle Hd Hr.
  pose proof (dispatch_former_context es _ s t Hd) as Hfc.
  cbn [activate fst former_context set_former_context] in Hfc.
  revert Hfc. rewrite Hctx.
  refine (dispatch_armed_invariant
            (fun s => former_context s = "scaleSuperContext" -> scale_compensate s = true)
            _ es _ s t _ Hd Hr).
  - intros cmds s0 r s' tr Hrun Hr' Hfc.
    pose proof (handle_former_context (Press cmds) s0) as Hsame.
    cbn [handle] in Hsame. rewrite Hrun in Hsame. cbn [fst snd] in Hsame.
    pose proof (on_press_armed cmds s0) as Ha. rewrite Hrun in Ha.
    destruct (Ha Hr') as (_ & -> & _).
    rewrite <- Hsame, Hfc. by rewrite orb_true_r.
  - cbn [activate fst is_ready set_former_context]. congruence.
Qed.

Lemma scale_tool_activation_compensates_witness :
  scale_compensate DemoTools.cube_pressed_from_scale_tool = true.
Proof.
  apply (scale_tool_activation_compensates DemoTools.from_scale_tool __init__
           [Press (Demo.scene false "none" [Demo.cube1] (Some [0; 0; 0; 2; 0; 0]%float))]
           _ [UndoOpenChunk]);
    vm_compute; reflexivity.
Defined.

(** ** The identifier tests *)

(** X15: the test [sub in s] of [on_press], as embedded, holds exactly when [s]
    holds [sub] as a contiguous substring. *)
Theorem str_in_spec (sub s : string) :
  str_in sub s = true <-> exists pre post, s = pre +:+ sub +:+ post.
Proof.
  split.
  - induction s as [|c s IH]; cbn [str_in].
    + destruct (String.prefix sub "") eqn:Hp; [|done].
      intros _. apply prefix_spec in Hp as [post Hp]. by exists "", post.
    + destruct (String.prefix sub (String c s)) eqn:Hp.
      * intros _. apply prefix_spec in Hp as [post Hp]. by exists "", post.
      * intros H. destruct (IH H) as (pre & post & ->). by exists (String c pre), post.
  - intros (pre & post & ->). induction pre as [|c pre IH].
    + assert (Hp : String.prefix sub ("" +:+ sub +:+ post) = true)
        by (apply prefix_spec; by exists post).
      destruct ("" +:+ sub +:+ post); cbn [str_in]; by rewrite Hp.
    + rewrite string_app_cons. cbn [str_in]. rewrite IH. by case_match.
Qed.

(** ** A press that gives up late *)

(** X16: a press that returns without arming after it resolved targets (the
    host answers no bounding box) does not clear what it had recorded: the
    instance keeps the targets, the mode flags and one initial position per
    target, with [is_ready] false, until the next press or release. *)
Theorem on_press_abort_keeps_fields
    (cmds : Maya) (s s' : OkPushyTool) (tr : list call) :
  run (on_press cmds) s = (Ok tt, s', tr) ->
  is_ready s' = false ->
  selection s' <> [] ->
  is_ortho s' = false
  /\ truthy_list (exactWorldBoundingBox cmds (bbox_nodes cmds s')) = false
  /\ selection s' = resolved cmds
  /\ is_component_mode s' = existsb is_component (ls_selection cmds)
  /\ Forall2 (fun item p => position_of cmds item = Some p)
       (selection s') (initial_positions s')
  /\ initial_vectors s' = [] /\ initial_scales s' = ∅.
Proof.
  unfold run, on_press, _reset_state, arm.
  autorewrite with py.
  destruct (_ || _); [by intros [= <- <-]|].
  autorewrite with py.
  destruct (listRelatives_shapes cmds _) as [shapes|]; [|done].
  destruct (shapes !! 0) as [cam_shape|]; [|done].
  autorewrite with py.
  destruct (ls_selection cmds) as [|item0 raw] eqn:Hraw; cbn [truthy_list negb];
    [by intros [= <- <-]|].
  rewrite <- Hraw.
  erewrite bind_run by apply resolve_selection_spec.
  autorewrite with py.
  change (selection (set_selection ?x _)) with x.
  destruct (resolved cmds) as [|item sel] eqn:Hsel; cbn [negb].
  { intros [= <- <-] _ Hne. by fields. }
  rewrite <- Hsel. autorewrite with py.
  match goal with
  | |- context [bind (record_initial_positions cmds) _ ?s1 ?t1] =>
      destruct (record_initial_positions_content cmds s1 t1) as (r & ps & Heq & Hnew)
  end.
  erewrite bind_run by exact Heq. clear Heq.
  destruct r as [[]|e]; [|done].
  destruct (Hnew eq_refl) as (new & -> & Hpos). clear Hnew. fields.
  cbn [app] in *. autorewrite with py.
  change (initial_positions (set_initial_positions ?x _)) with x.
  destruct new as [|p new]; cbn [negb].
  { rewrite Hsel in Hpos. by apply Forall2_nil_inv_r in Hpos. }
  autorewrite with py. fields.
  destruct (getAttr_bool cmds (cam_shape +:+ ".orthographic")) eqn:Hortho.
  - (* orthographic camera: raises or arms *)
    autorewrite with py.
    destruct (_ !! 8); [|done]. autorewrite with py.
    destruct (_ !! 9); [|done]. autorewrite with py.
    destruct (_ !! 10); [|done]. autorewrite with py.
    by intros [= <- <-].
  - (* perspective camera *)
    autorewrite with py. fields.
    destruct (truthy_list (exactWorldBoundingBox cmds _)) eqn:Hbbox; cbn [negb].
    2:{ intros [= <- <-] _ _. unfold bbox_nodes. fields.
        rewrite Hbbox. by repeat split. }
    destruct (exactWorldBoundingBox cmds _) as [bbox|] eqn:Hbox; [|done].
    autorewrite with py.
    destruct bbox as [|b0 [|b1 [|b2 [|b3 [|b4 [|b5 bbox]]]]]];
      repeat (autorewrite with py; cbn [lookup list_lookup]);
      try done.
    destruct (MVector_of_seq cmds _) as [cam_pos|e]; [|done].
    autorewrite with py.
    match goal with
    | |- context [bind (record_initial_scales cmds) _ ?s1 ?t1] =>
        destruct (record_initial_scales_content cmds s1 t1) as (r & m & Heq & Hm)
    end.
    erewrite bind_run by exact Heq. clear Heq.
    destruct r as [[]|e]; [|done].
    autorewrite with py. by intros [= <- <-].
Qed.

Lemma on_press_abort_keeps_fields_witness :
  let cmds := Demo.no_bounding_box in
  let s' := Demo.pressed Demo.no_bounding_box in
  is_ortho s' = false
  /\ truthy_list (exactWorldBoundingBox cmds (bbox_nodes cmds s')) = false
  /\ selection s' = resolved cmds
  /\ is_component_mode s' = existsb is_component (ls_selection cmds)
  /\ Forall2 (fun item p => position_of cmds item = Some p)
       (selection s') (initial_positions s')
  /\ initial_vectors s' = [] /\ initial_scales s' = ∅.
Proof.
  apply (on_press_abort_keeps_fields Demo.no_bounding_box __init__ _
           [UndoOpenChunk; UndoCloseChunk]);
    vm_compute; try reflexivity. discriminate.
Defined.

(** ** Undo chunks *)

(** X17: the undo chunks of a whole session, a press, any drags and a release,
    on any instance: exactly one chunk is opened; it is closed once when the
    press armed the session or raised, and twice when the press returned
    without arming.  The instance is idle afterwards. *)
Theorem session_undo_chunks
    (cmds : Maya) (drag_points : list (list float)) (s : OkPushyTool) :
  let '(r, armed, _) := run (on_press cmds) s in
  let '(s', tr) := dispatch (Press cmds :: map Drag drag_points ++ [Release]) s in
  s' = idle (former_context s)
  /\ opens tr = 1
  /\ closes tr = (if is_ready armed then 1 else match r with Ok _ => 2 | Raise _ => 1 end).
Proof. apply session_chunks. Qed.
